(** * Advanced Event Management API: the event routes, embedded and verified

    The development follows [src/routes/eventRoutes.js] and the error
    middleware of the application entry file.  The four handlers are written
    in a small state-and-exception monad over a world that holds the data
    file, so that every read and every write the JavaScript performs is a
    step of the model.

    Modelling conventions.
    - A JavaScript value is [option json]: [None] is [undefined], which a
      JSON document cannot carry but which a missing property yields.
    - JSON numbers are modelled by integers; the program only tests numbers
      for being zero (truthiness) and for equality.
    - An object is the list of its own properties in property order.  The
      keys the program uses are not array indices, so assignment keeps the
      position of an existing key and appends a new one.
    - The data file is represented by what [fs.readFile], [String.trim] and
      [JSON.parse] make of it.  On the values of this model
      [JSON.parse (JSON.stringify v)] is [v], so a write stores the value
      itself. *)

From stdpp Require Import base option list strings pretty.
From Stdlib Require Import ZArith Lia Ascii.

(** ** JSON values and the JavaScript operators the routes use *)

#[warnings="-register-all"]
Inductive json : Type :=
| JNull
| JBool (b : bool)
| JNum (n : Z)
| JStr (s : string)
| JArr (items : list json)
| JObj (props : list (string * json)).

Abbreviation object := (list (string * json)) (only parsing).
Abbreviation value := (option json) (only parsing).

(** ToBoolean: [undefined], [null], [false], [0] and [""] are falsy. *)
Definition truthy (v : value) : bool :=
  match v with
  | None => false
  | Some JNull => false
  | Some (JBool b) => b
  | Some (JNum n) => negb (n =? 0)%Z
  | Some (JStr s) => negb (bool_decide (s = ""))
  | Some (JArr _) => true
  | Some (JObj _) => true
  end.

(** [a === b] for two values that come from different [JSON.parse] results
    (the data file on one side, the request on the other): primitives are
    compared by value, arrays and objects by reference, hence never equal. *)
Definition strict_eq (a b : value) : bool :=
  match a, b with
  | None, None => true
  | Some JNull, Some JNull => true
  | Some (JBool x), Some (JBool y) => bool_decide (x = y)
  | Some (JNum x), Some (JNum y) => bool_decide (x = y)
  | Some (JStr x), Some (JStr y) => bool_decide (x = y)
  | _, _ => false
  end.

Definition is_array (v : value) : bool :=
  match v with
  | Some (JArr _) => true
  | _ => false
  end.

(** [a || b] with a defined right operand. *)
Definition js_or (a : value) (b : json) : json :=
  match a with
  | Some v => if truthy a then v else b
  | None => b
  end.

(** [o.k] on an object: the first (and, after [JSON.parse], only) entry. *)
Fixpoint get_prop (k : string) (o : object) : value :=
  match o with
  | [] => None
  | (k', v) :: o' => if decide (k' = k) then Some v else get_prop k o'
  end.

(** [o.k = v]: an existing key keeps its place, a new key goes last. *)
Fixpoint set_prop (k : string) (v : json) (o : object) : object :=
  match o with
  | [] => [(k, v)]
  | (k', v') :: o' =>
      if decide (k' = k) then (k', v) :: o' else (k', v') :: set_prop k v o'
  end.

(** An object literal as [JSON.stringify] and [res.json] see it: a property
    whose value is [undefined] is left out. *)
Fixpoint literal (fields : list (string * value)) : object :=
  match fields with
  | [] => []
  | (k, Some v) :: fields' => (k, v) :: literal fields'
  | (_, None) :: fields' => literal fields'
  end.

(** ** Exceptions *)

Record exn : Type := Exn {
  message : string;
  code : option string;
  statusCode : option Z
}.

(** [new Error(msg)], and the engine's [TypeError]: neither has a [code] or a
    [statusCode]. *)
Definition new_Error (msg : string) : exn :=
  {| message := msg; code := None; statusCode := None |}.

Inductive outcome (A : Type) : Type :=
| Return (a : A)
| Throw (e : exn).
Arguments Return {A} a.
Arguments Throw {A} e.

Definition out_bind {A B} (m : outcome A) (k : A → outcome B) : outcome B :=
  match m with
  | Return a => k a
  | Throw e => Throw e
  end.

(** [e.k] where [e] is an element of the parsed document.  Reading a property
    of [null] throws; a primitive or an array has none of the keys the
    routes read ([id], [eventName], [date]). *)
Definition member (k : string) (e : json) : outcome value :=
  match e with
  | JNull =>
      Throw (new_Error ("Cannot read properties of null (reading '" +:+ k +:+ "')"))
  | JObj o => Return (get_prop k o)
  | _ => Return None
  end.

(** [events.find], [events.findIndex], [events.filter]: the receiver has to
    be an array. *)
Definition array_method (name : string) (events : json) : outcome (list json) :=
  match events with
  | JArr l => Return l
  | JNull =>
      Throw (new_Error ("Cannot read properties of null (reading '" +:+ name +:+ "')"))
  | _ => Throw (new_Error ("events." +:+ name +:+ " is not a function"))
  end.

Fixpoint js_find (p : json → outcome bool) (l : list json) : outcome value :=
  match l with
  | [] => Return None
  | e :: l' =>
      out_bind (p e) (λ b, if b then Return (Some e) else js_find p l')
  end.

(** [None] stands for the index [-1]. *)
Fixpoint js_findIndex (p : json → outcome bool) (l : list json) : outcome (option nat) :=
  match l with
  | [] => Return None
  | e :: l' =>
      out_bind (p e) (λ b,
        if b then Return (Some 0)
        else out_bind (js_findIndex p l') (λ r, Return (S <$> r)))
  end.

Fixpoint js_filter (p : json → outcome bool) (l : list json) : outcome (list json) :=
  match l with
  | [] => Return []
  | e :: l' =>
      out_bind (p e) (λ b,
        out_bind (js_filter p l') (λ r, Return (if b then e :: r else r)))
  end.

(** ** The data file *)

Inductive contents : Type :=
| Blank                (* [data.trim()] is empty *)
| Garbled              (* [JSON.parse(data)] throws a [SyntaxError] *)
| Json (v : json).     (* [JSON.parse(data)] returns [v] *)

(** What [fs] rejects with: an errno name in [code], no [statusCode]. *)
Record fs_error : Type := FsError {
  errno : string;
  detail : string
}.

Definition fs_exn (e : fs_error) : exn :=
  {| message := detail e; code := Some (errno e); statusCode := None |}.

Inductive file_state : Type :=
| Rejects (err : fs_error)  (* [fs.readFile] fails with [err] *)
| Holds (c : contents).

Inductive io_op : Type :=
| ReadFile
| WriteFile (v : json).

Record world : Type := World {
  file : file_state;
  write_error : option fs_error;  (* [Some e]: [mkdir]/[writeFile] fail with [e] *)
  trace : list io_op          (* storage operations so far, latest first *)
}.

Definition enoent : fs_error :=
  {| errno := "ENOENT"; detail := "ENOENT: no such file or directory" |}.

(** The data file does not exist. *)
Definition Absent : file_state := Rejects enoent.

Definition IO (A : Type) : Type := world → outcome A * world.

Definition io_ret {A} (a : A) : IO A := λ w, (Return a, w).

Definition io_bind {A B} (m : IO A) (k : A → IO B) : IO B :=
  λ w, match m w with
       | (Return a, w') => k a w'
       | (Throw e, w') => (Throw e, w')
       end.

Definition lift {A} (m : outcome A) : IO A := λ w, (m, w).

Definition try_catch {A} (m : IO A) (handler : exn → IO A) : IO A :=
  λ w, match m w with
       | (Return a, w') => (Return a, w')
       | (Throw e, w') => handler e w'
       end.

Notation "'let!' x ':=' m 'in' k" := (io_bind m (λ x, k))
  (at level 10, x name, m at level 100, k at level 200, only parsing).

Definition record_op (op : io_op) (w : world) : world :=
  {| file := file w; write_error := write_error w; trace := op :: trace w |}.

Definition fs_readFile : IO contents :=
  λ w, match file w with
       | Rejects err => (Throw (fs_exn err), record_op ReadFile w)
       | Holds c => (Return c, record_op ReadFile w)
       end.

Definition JSON_parse (c : contents) : outcome json :=
  match c with
  | Blank | Garbled => Throw (new_Error "Unexpected token in JSON")
  | Json v => Return v
  end.

Definition readEvents : IO json :=
  try_catch
    (let! data := fs_readFile in
     match data with
     | Blank => io_ret (JArr [])
     | _ => lift (JSON_parse data)
     end)
    (λ err,
       if bool_decide (code err = Some "ENOENT") then io_ret (JArr [])
       else lift (Throw (new_Error "Failed to read events data (file may be corrupted)."))).

Definition writeEvents (events : json) : IO () :=
  λ w, match write_error w with
       | Some e => (Throw (fs_exn e), record_op (WriteFile events) w)
       | None =>
           (Return (),
            {| file := Holds (Json events); write_error := None;
               trace := WriteFile events :: trace w |})
       end.

(** [Date.now()] and [Math.floor(Math.random() * 100000)] are inputs of the
    model: the clock in milliseconds and the integer drawn. *)
Definition generateId (now : Z) (draw : N) : string :=
  pretty now +:+ "-" +:+ pretty draw.

(** ** Responses and the error middleware *)

Record response : Type := Response {
  status : Z;
  body : json
}.

Definition error_body (msg : string) : json := JObj [("error", JStr msg)].

(** [app.use((err, req, res, next) => ...)] of the entry file. *)
Definition error_handler (err : exn) : response :=
  {| status := match statusCode err with
               | Some c => if (c =? 0)%Z then 500%Z else c
               | None => 500%Z
               end;
     body := error_body (if bool_decide (message err = "")
                         then "Internal Server Error" else message err) |}.

(** [try { ... } catch (err) { next(err); }] around a handler body. *)
Definition route (handler : IO response) (w : world) : response * world :=
  match handler w with
  | (Return r, w') => (r, w')
  | (Throw e, w') => (error_handler e, w')
  end.

Definition respond (code : Z) (payload : json) : IO response :=
  io_ret {| status := code; body := payload |}.

(** ** POST /api/events *)

(** [(e) => e.eventName === eventName && e.date === date] *)
Definition is_duplicate (eventName date : value) (e : json) : outcome bool :=
  out_bind (member "eventName" e) (λ n,
    if strict_eq n eventName
    then out_bind (member "date" e) (λ d, Return (strict_eq d date))
    else Return false).

(** [Array.isArray(tags) ? tags : tags ? [tags] : []] *)
Definition create_tags (tags : value) : json :=
  match tags with
  | Some (JArr items) => JArr items
  | Some t => if truthy tags then JArr [t] else JArr []
  | None => JArr []
  end.

Definition post_events (now : Z) (draw : N) (req_body : object) : IO response :=
  let eventName := get_prop "eventName" req_body in
  let date := get_prop "date" req_body in
  let location := get_prop "location" req_body in
  let description := get_prop "description" req_body in
  let tags := get_prop "tags" req_body in
  if negb (truthy eventName) || negb (truthy date) || negb (truthy location) then
    respond 400 (error_body "eventName, date, and location are required.")
  else
    let! events := readEvents in
    let! l := lift (array_method "find" events) in
    let! duplicate := lift (js_find (is_duplicate eventName date) l) in
    if truthy duplicate then
      respond 409
        (error_body "An event with the same eventName and date already exists.")
    else
      let newEvent :=
        JObj (literal
          [("id", Some (JStr (generateId now draw)));
           ("eventName", eventName);
           ("date", date);
           ("location", location);
           ("description", Some (js_or description (JStr "")));
           ("tags", Some (create_tags tags))]) in
      let! _ := writeEvents (JArr (l ++ [newEvent])) in
      respond 201 newEvent.

(** ** GET /api/events *)

Definition get_events : IO response :=
  let! events := readEvents in
  respond 200 events.

(** ** PUT /api/events/:id *)

(** The names the handler takes out of the body; [rest] is what remains. *)
Definition destructured : list string :=
  ["location"; "description"; "tags"; "date"; "eventName"].

Definition is_undefined (v : value) : bool :=
  match v with
  | None => true
  | Some _ => false
  end.

(** [(e) => e.id === id] *)
Definition has_id (id : string) (e : json) : outcome bool :=
  out_bind (member "id" e) (λ v, Return (strict_eq v (Some (JStr id)))).

(** [events[index].k = v]; the element found by its [id] is an object. *)
Definition assign (k : string) (v : json) (e : json) : json :=
  match e with
  | JObj o => JObj (set_prop k v o)
  | _ => e
  end.

(** [Array.isArray(tags) ? tags : [tags]] *)
Definition update_tags (tags : json) : json :=
  match tags with
  | JArr items => JArr items
  | t => JArr [t]
  end.

(** [if (v !== undefined) events[index].k = f(v)] *)
Definition assign_defined (k : string) (v : value) (f : json → json)
    (index : nat) (events : list json) : list json :=
  match v with
  | Some x => alter (assign k (f x)) index events
  | None => events
  end.

Definition put_event (id : string) (req_body : object) : IO response :=
  let location := get_prop "location" req_body in
  let description := get_prop "description" req_body in
  let tags := get_prop "tags" req_body in
  let date := get_prop "date" req_body in
  let eventName := get_prop "eventName" req_body in
  let rest := filter (λ p, p.1 ∉ destructured) req_body in
  if truthy eventName then
    respond 400 (error_body "eventName cannot be updated for an existing event.")
  else if truthy (get_prop "id" rest) then
    respond 400 (error_body "id cannot be modified for an existing event.")
  else if is_undefined location && is_undefined description
          && is_undefined tags && is_undefined date then
    respond 400
      (error_body
         "Provide at least one field to update: location, description, tags, or date.")
  else
    let! events := readEvents in
    let! l := lift (array_method "findIndex" events) in
    let! index := lift (js_findIndex (has_id id) l) in
    match index with
    | None => respond 404 (error_body "Event not found.")
    | Some i =>
        let l := assign_defined "location" location (λ v, v) i l in
        let l := assign_defined "description" description (λ v, v) i l in
        let l := assign_defined "date" date (λ v, v) i l in
        let l := assign_defined "tags" tags update_tags i l in
        let! _ := writeEvents (JArr l) in
        respond 200 (default JNull (l !! i))
    end.

(** ** DELETE /api/events/:id *)

Definition delete_event (id : string) : IO response :=
  let! events := readEvents in
  let! l := lift (array_method "findIndex" events) in
  let! index := lift (js_findIndex (has_id id) l) in
  match index with
  | None => respond 404 (error_body "Event not found.")
  | Some _ =>
      let! updated :=
        lift (js_filter (λ e, out_bind (has_id id e) (λ b, Return (negb b))) l) in
      let! _ := writeEvents (JArr updated) in
      respond 200 (JObj [("message", JStr "Event deleted successfully.")])
  end.

(** ** The four routes, each with its [catch] and the error middleware *)

Definition router_post (now : Z) (draw : N) (req_body : object) : world → response * world :=
  route (post_events now draw req_body).

Definition router_get : world → response * world :=
  route get_events.

Definition router_put (id : string) (req_body : object) : world → response * world :=
  route (put_event id req_body).

Definition router_delete (id : string) : world → response * world :=
  route (delete_event id).

(** ** Notions used to state the properties *)

(** What [readEvents] returns for a given file; [None] when it throws. *)
Definition document (f : file_state) : option json :=
  match f with
  | Rejects err =>
      if bool_decide (errno err = "ENOENT") then Some (JArr []) else None
  | Holds Blank => Some (JArr [])
  | Holds Garbled => None
  | Holds (Json v) => Some v
  end.

(** The stored collection: the document, when it is an array. *)
Definition collection (f : file_state) : option (list json) :=
  match document f with
  | Some (JArr l) => Some l
  | _ => None
  end.

Definition read_failure : exn :=
  new_Error "Failed to read events data (file may be corrupted).".

Definition is_object (e : json) : bool :=
  match e with
  | JObj _ => true
  | _ => false
  end.

(** Every element of the stored array is a record. *)
Definition all_objects (l : list json) : Prop :=
  Forall (λ e, is_object e = true) l.

(** The field [k] of a stored record. *)
Definition field (k : string) (e : json) : value :=
  match e with
  | JObj o => get_prop k o
  | _ => None
  end.

Definition is_primitive (v : json) : bool :=
  match v with
  | JArr _ | JObj _ => false
  | _ => true
  end.

(** A value that is missing from the request, or is the empty string. *)
Definition missing_or_empty (v : value) : Prop :=
  v = None ∨ v = Some (JStr "").

(** Two records carry the same [(eventName, date)] pair. *)
Definition same_key (a b : json) : Prop :=
  field "eventName" a = field "eventName" b ∧ field "date" a = field "date" b.

Definition unique_keys (l : list json) : Prop :=
  ∀ i j a b, l !! i = Some a → l !! j = Some b → i ≠ j → ¬ same_key a b.

Definition ids (l : list json) : list value := field "id" <$> l.

Definition tags_is_array (e : json) : Prop :=
  is_array (field "tags" e) = true.

(** The record a create builds, once the three required fields are known to
    be defined. *)
Definition created_record (id : string) (n d loc : json)
    (description tags : value) : json :=
  JObj [("id", JStr id); ("eventName", n); ("date", d); ("location", loc);
        ("description", js_or description (JStr ""));
        ("tags", create_tags tags)].

(** The fields an update may change. *)
Definition recognized : list string :=
  ["location"; "description"; "date"; "tags"].

(** The value a plain field has after an update that may carry it. *)
Definition updated_field (k : string) (req_body o : object) : value :=
  match get_prop k req_body with
  | Some v => Some v
  | None => get_prop k o
  end.

(** The four conditional assignments of an update, on one record. *)
Definition patch_record (req_body : object) (e : json) : json :=
  let e := match get_prop "location" req_body with
           | Some v => assign "location" v e | None => e end in
  let e := match get_prop "description" req_body with
           | Some v => assign "description" v e | None => e end in
  let e := match get_prop "date" req_body with
           | Some v => assign "date" v e | None => e end in
  match get_prop "tags" req_body with
  | Some v => assign "tags" (update_tags v) e | None => e end.

(** The body of an update passes the three checks made before the file is
    read. *)
Definition valid_update (req_body : object) : Prop :=
  truthy (get_prop "eventName" req_body) = false
  ∧ truthy (get_prop "id" req_body) = false
  ∧ (is_undefined (get_prop "location" req_body)
     && is_undefined (get_prop "description" req_body)
     && is_undefined (get_prop "tags" req_body)
     && is_undefined (get_prop "date" req_body) = false).

Definition not_found : response :=
  Response 404 (error_body "Event not found.").

Definition deleted : response :=
  Response 200 (JObj [("message", JStr "Event deleted successfully.")]).

(** [e.id !== id] on a stored record. *)
Definition keeps (id : string) (e : json) : bool :=
  negb (strict_eq (field "id" e) (Some (JStr id))).

(** A failure response: the body is [{ error: msg }] with a message. *)
Definition error_response (r : response) : Prop :=
  ∃ msg, msg ≠ "" ∧ body r = error_body msg.

(** [(e) => e.id !== id], the callback of the filter in delete. *)
Definition other_id (id : string) (e : json) : outcome bool :=
  out_bind (has_id id e) (λ b, Return (negb b)).

(** The storage operations a route adds to the trace are one of: none, a
    read, a read followed by the write of an array. *)
Definition read_then_write (before after : list io_op) : Prop :=
  after = before
  ∨ after = ReadFile :: before
  ∨ ∃ l, after = WriteFile (JArr l) :: ReadFile :: before.

Fixpoint no_dash (s : string) : Prop :=
  match s with
  | EmptyString => True
  | String a s' => a ≠ "-"%char ∧ no_dash s'
  end.

(** *** Sample data *)

Definition gala : json :=
  JObj [("id", JStr "1700000000000-42"); ("eventName", JStr "Gala");
        ("date", JStr "2025-01-01"); ("location", JStr "Hall");
        ("description", JStr ""); ("tags", JArr [])].

Definition expo : json :=
  JObj [("id", JStr "1700000000500-7"); ("eventName", JStr "Expo");
        ("date", JStr "2025-02-02"); ("location", JStr "Dock");
        ("description", JStr "Trade fair"); ("tags", JArr [JStr "b2b"])].

Definition gala_request : object :=
  [("eventName", JStr "Gala"); ("date", JStr "2025-01-01");
   ("location", JStr "Hall")].

Definition expo_request : object :=
  [("eventName", JStr "Expo"); ("date", JStr "2025-02-02");
   ("location", JStr "Dock"); ("description", JStr "Trade fair");
   ("tags", JStr "b2b")].

(** A world whose data file holds the array [l]. *)
Definition stored (l : list json) : world :=
  {| file := Holds (Json (JArr l)); write_error := None; trace := [] |}.

Definition no_file : world :=
  {| file := Absent; write_error := None; trace := [] |}.

(** * Properties *)

(** ** The JavaScript operators *)

Lemma truthy_missing_or_empty v : missing_or_empty v → truthy v = false.
Proof. by intros [-> | ->]. Qed.

Lemma truthy_is_Some v : truthy v = true → ∃ x, v = Some x.
Proof. destruct v; [eauto | done]. Qed.

Lemma strict_eq_eq a b : strict_eq a b = true → a = b.
Proof.
  destruct a as [[]|], b as [[]|]; simpl; try done;
    intros H%bool_decide_eq_true; by subst.
Qed.

Lemma strict_eq_refl_primitive v :
  is_primitive v = true → strict_eq (Some v) (Some v) = true.
Proof. destruct v; simpl; try done; intros _; by apply bool_decide_eq_true. Qed.

Lemma strict_eq_string v s : strict_eq v (Some (JStr s)) = true ↔ v = Some (JStr s).
Proof.
  split; [apply strict_eq_eq | intros ->; by apply strict_eq_refl_primitive].
Qed.

Lemma get_prop_rest k (names : list string) (o : list (string * json)) :
  k ∉ names → get_prop k (filter (λ p, p.1 ∉ names) o) = get_prop k o.
Proof.
  intros Hk. induction o as [|[k' v] o IH]; [done|].
  rewrite filter_cons. simpl. destruct (decide (k' = k)) as [->|Hne].
  - rewrite decide_True by done. simpl. by rewrite decide_True.
  - destruct (decide (k' ∉ names)); [simpl; by rewrite decide_False | done].
Qed.

(** ** Reading and writing the data file *)

Lemma readEvents_spec w :
  readEvents w =
    (match document (file w) with
     | Some v => Return v
     | None => Throw read_failure
     end, record_op ReadFile w).
Proof.
  unfold readEvents, try_catch, io_bind, fs_readFile, document.
  destruct (file w) as [err | [ | | v]]; simpl; try done.
  destruct (decide (errno err = "ENOENT")) as [Heq | Hne].
  - rewrite !bool_decide_eq_true_2; [done | done | by rewrite Heq].
  - rewrite !bool_decide_eq_false_2; [done | done | congruence].
Qed.

Lemma error_handler_status e : statusCode e = None → status (error_handler e) = 500%Z.
Proof. unfold error_handler. by intros ->. Qed.

(** ** Create: validation of the required fields *)

Lemma post_events_falsy now draw req_body w :
  truthy (get_prop "eventName" req_body) = false
  ∨ truthy (get_prop "date" req_body) = false
  ∨ truthy (get_prop "location" req_body) = false →
  router_post now draw req_body w =
    (Response 400 (error_body "eventName, date, and location are required."), w).
Proof.
  intros H. unfold router_post, route, post_events.
  destruct H as [-> | [-> | ->]]; simpl; rewrite ?orb_true_r; done.
Qed.

(** C6: a create request in which [eventName], [date] or [location] is
    missing or is the empty string is answered with 400, and the world is
    returned as it was: the file is the same and no storage operation has
    been added to the trace (nothing was read, nothing was written). *)
Theorem post_missing_required_400 now draw req_body w :
  missing_or_empty (get_prop "eventName" req_body)
  ∨ missing_or_empty (get_prop "date" req_body)
  ∨ missing_or_empty (get_prop "location" req_body) →
  router_post now draw req_body w =
    (Response 400 (error_body "eventName, date, and location are required."), w).
Proof.
  intros H. apply post_events_falsy.
  destruct H as [H | [H | H]]; apply truthy_missing_or_empty in H; auto.
Qed.

Lemma post_missing_required_400_witness :
  (missing_or_empty (get_prop "eventName" [("eventName", JStr "Gala"); ("date", JStr "")])
   ∨ missing_or_empty (get_prop "date" [("eventName", JStr "Gala"); ("date", JStr "")])
   ∨ missing_or_empty (get_prop "location" [("eventName", JStr "Gala"); ("date", JStr "")]))
  ∧ router_post 1700000000000 42 [("eventName", JStr "Gala"); ("date", JStr "")]
      (stored [expo]) =
    (Response 400 (error_body "eventName, date, and location are required."),
     stored [expo]).
Proof.
  split.
  - right; left; right; reflexivity.
  - apply post_missing_required_400. right; left; right; reflexivity.
Defined.

(** ** Update: validation of the request body *)

Lemma id_not_destructured : "id" ∉ destructured.
Proof.
  unfold destructured. intros H.
  repeat (apply elem_of_cons in H as [H | H]; [discriminate H|]).
  by apply elem_of_nil in H.
Qed.

Lemma put_event_truthy_eventName id req_body w :
  truthy (get_prop "eventName" req_body) = true →
  router_put id req_body w =
    (Response 400 (error_body "eventName cannot be updated for an existing event."), w).
Proof. intros H. unfold router_put, route, put_event. by rewrite H. Qed.

Lemma put_event_truthy_id id req_body w :
  truthy (get_prop "eventName" req_body) = false →
  truthy (get_prop "id" req_body) = true →
  router_put id req_body w =
    (Response 400 (error_body "id cannot be modified for an existing event."), w).
Proof.
  intros Hn Hi. unfold router_put, route, put_event.
  rewrite Hn, get_prop_rest, Hi; [done | apply id_not_destructured].
Qed.

Lemma put_event_nothing_to_update id req_body w :
  truthy (get_prop "eventName" req_body) = false →
  truthy (get_prop "id" req_body) = false →
  get_prop "location" req_body = None →
  get_prop "description" req_body = None →
  get_prop "date" req_body = None →
  get_prop "tags" req_body = None →
  router_put id req_body w =
    (Response 400
       (error_body
          "Provide at least one field to update: location, description, tags, or date."),
     w).
Proof.
  intros Hn Hi Hl Hd Hda Ht. unfold router_put, route, put_event.
  rewrite Hn, get_prop_rest, Hi, Hl, Hd, Hda, Ht;
    [done | apply id_not_destructured].
Qed.

(** C7: an update request that carries none of [location], [description],
    [date], [tags] (the empty body included) is answered with 400 and an
    error message, whatever else it carries; the world, and so every stored
    record, is as it was. *)
Theorem put_no_recognized_field_400 id req_body w :
  get_prop "location" req_body = None →
  get_prop "description" req_body = None →
  get_prop "date" req_body = None →
  get_prop "tags" req_body = None →
  ∃ msg, router_put id req_body w = (Response 400 (error_body msg), w).
Proof.
  intros Hl Hd Hda Ht.
  destruct (truthy (get_prop "eventName" req_body)) eqn:Hn.
  { eexists. by apply put_event_truthy_eventName. }
  destruct (truthy (get_prop "id" req_body)) eqn:Hi.
  { eexists. by apply put_event_truthy_id. }
  eexists. by apply put_event_nothing_to_update.
Qed.

Lemma put_no_recognized_field_400_witness :
  get_prop "location" [] = None ∧ get_prop "description" [] = None
  ∧ get_prop "date" [] = None ∧ get_prop "tags" [] = None
  ∧ ∃ msg, router_put "1700000000000-42" [] (stored [gala]) =
             (Response 400 (error_body msg), stored [gala]).
Proof.
  repeat split.
  exact (put_no_recognized_field_400 "1700000000000-42" [] (stored [gala])
           eq_refl eq_refl eq_refl eq_refl).
Defined.

(** C5, as stated, fails: a body that contains an [eventName] field whose
    value is the empty string, next to a new [location], is not rejected.
    The update goes through with 200 and the file changes. *)
Lemma put_contains_eventName_counterexample :
  ¬ (is_Some (get_prop "eventName" [("eventName", JStr ""); ("location", JStr "Pier")])
     ∨ is_Some (get_prop "id" [("eventName", JStr ""); ("location", JStr "Pier")]) →
     status (router_put "1700000000000-42"
               [("eventName", JStr ""); ("location", JStr "Pier")]
               (stored [gala])).1 = 400%Z
     ∧ file (router_put "1700000000000-42"
               [("eventName", JStr ""); ("location", JStr "Pier")]
               (stored [gala])).2 = file (stored [gala])).
Proof.
  intros H. destruct H as [H _].
  - left. by eexists.
  - vm_compute in H. discriminate H.
Qed.

(** C5, amended: an update request whose body carries a truthy [eventName]
    or a truthy [id] is answered with 400 whether or not the id of the path
    exists; the world is as it was, and the file has not even been read. *)
Theorem put_truthy_immutable_400 id req_body w :
  truthy (get_prop "eventName" req_body) = true
  ∨ truthy (get_prop "id" req_body) = true →
  ∃ msg, router_put id req_body w = (Response 400 (error_body msg), w).
Proof.
  intros H.
  destruct (truthy (get_prop "eventName" req_body)) eqn:Hn.
  { eexists. by apply put_event_truthy_eventName. }
  destruct H as [H | H]; [done|].
  eexists. by apply put_event_truthy_id.
Qed.

Lemma put_truthy_immutable_400_witness :
  (truthy (get_prop "eventName" [("eventName", JStr "Ball")]) = true
   ∨ truthy (get_prop "id" [("eventName", JStr "Ball")]) = true)
  ∧ ∃ msg, router_put "no-such-id" [("eventName", JStr "Ball")] (stored [gala]) =
             (Response 400 (error_body msg), stored [gala]).
Proof.
  split.
  - left; reflexivity.
  - apply put_truthy_immutable_400. left; reflexivity.
Defined.

(** ** Read-all *)

(** C9: read-all answers 200 with the parsed document as it is, the empty
    array when the file is absent or blank, and 500 with the storage error
    message when the file does not parse.  Each case reads the file once and
    leaves it alone. *)
Theorem get_events_read_all :
  (∀ v we tr,
     router_get (World (Holds (Json v)) we tr) =
       (Response 200 v, World (Holds (Json v)) we (ReadFile :: tr)))
  ∧ (∀ we tr,
     router_get (World Absent we tr) =
       (Response 200 (JArr []), World Absent we (ReadFile :: tr)))
  ∧ (∀ we tr,
     router_get (World (Holds Blank) we tr) =
       (Response 200 (JArr []), World (Holds Blank) we (ReadFile :: tr)))
  ∧ (∀ we tr,
     router_get (World (Holds Garbled) we tr) =
       (Response 500
          (error_body "Failed to read events data (file may be corrupted)."),
        World (Holds Garbled) we (ReadFile :: tr))).
Proof.
  repeat split; intros; unfold router_get, route, get_events, io_bind;
    by rewrite readEvents_spec.
Qed.

(** ** The array methods *)

Section array_methods.
Variable p : json → outcome bool.

Lemma js_find_Some l e :
  js_find p l = Return (Some e) → e ∈ l ∧ p e = Return true.
Proof.
  induction l as [|x l IH]; simpl; [done|].
  destruct (p x) as [[]|] eqn:Hx; simpl; [| |done].
  - intros [= ->]. split; [left | done].
  - intros [? ?]%IH. split; [by right | done].
Qed.

Lemma js_find_None l :
  js_find p l = Return None → ∀ e, e ∈ l → p e = Return false.
Proof.
  induction l as [|x l IH]; simpl; intros H e He.
  { by apply elem_of_nil in He. }
  destruct (p x) as [[]|] eqn:Hx; simpl in H; try done.
  apply elem_of_cons in He as [-> | He]; [done | by apply IH].
Qed.

Lemma js_find_total l :
  (∀ e, e ∈ l → ∃ b, p e = Return b) → ∃ r, js_find p l = Return r.
Proof.
  induction l as [|x l IH]; simpl; intros H; [by eexists|].
  destruct (H x) as [[] ->]; [left | simpl; by eexists |]; simpl.
  apply IH. intros e He. apply H. by right.
Qed.

Lemma js_findIndex_Some l i :
  js_findIndex p l = Return (Some i) →
  ∃ e, l !! i = Some e ∧ p e = Return true
       ∧ ∀ j x, j < i → l !! j = Some x → p x = Return false.
Proof.
  revert i. induction l as [|x l IH]; simpl; intros i; [done|].
  destruct (p x) as [[]|] eqn:Hx; simpl; [| |done].
  - intros [= <-]. exists x. repeat split; [done|]. intros; lia.
  - destruct (js_findIndex p l) as [[k|]|] eqn:Hl; simpl; try done.
    intros [= <-]. destruct (IH k eq_refl) as (e & He & Hp & Hlt).
    exists e. repeat split; [done..|].
    intros [|j] y Hj; simpl; [by intros [= <-] | apply Hlt; lia].
Qed.

Lemma js_findIndex_None l :
  js_findIndex p l = Return None → ∀ e, e ∈ l → p e = Return false.
Proof.
  induction l as [|x l IH]; simpl; intros H e He.
  { by apply elem_of_nil in He. }
  destruct (p x) as [[]|] eqn:Hx; simpl in H; try done.
  destruct (js_findIndex p l) as [[k|]|] eqn:Hl; simpl in H; try done.
  apply elem_of_cons in He as [-> | He]; [done | by apply IH].
Qed.

Lemma js_findIndex_total l :
  (∀ e, e ∈ l → ∃ b, p e = Return b) → ∃ r, js_findIndex p l = Return r.
Proof.
  induction l as [|x l IH]; simpl; intros H; [by eexists|].
  destruct (H x) as [[] ->]; [left | simpl; by eexists |]; simpl.
  destruct IH as [r ->]; [|simpl; by eexists].
  intros e He. apply H. by right.
Qed.

Lemma js_filter_pure (q : json → bool) l :
  (∀ e, e ∈ l → p e = Return (q e)) →
  js_filter p l = Return (List.filter q l).
Proof.
  induction l as [|x l IH]; simpl; intros H; [done|].
  rewrite (H x), IH; [done | | left]. intros e He. apply H. by right.
Qed.

Hypothesis p_throws : ∀ e x, p e = Throw x → statusCode x = None.

Lemma js_find_Throw l x : js_find p l = Throw x → statusCode x = None.
Proof using p_throws.
  induction l as [|y l IH]; simpl; [done|].
  destruct (p y) as [[]|] eqn:Hy; simpl; [done | done |].
  intros [= <-]. eauto.
Qed.

Lemma js_findIndex_Throw l x : js_findIndex p l = Throw x → statusCode x = None.
Proof using p_throws.
  induction l as [|y l IH]; simpl; [done|].
  destruct (p y) as [[]|] eqn:Hy; simpl; [done | |].
  - destruct (js_findIndex p l) as [|] eqn:Hl; simpl; [done|].
    intros [= <-]. by apply IH.
  - intros [= <-]. eauto.
Qed.
End array_methods.

Lemma member_Throw k e x : member k e = Throw x → statusCode x = None.
Proof. destruct e; simpl; try done. by intros [= <-]. Qed.

Lemma member_field k e : e ≠ JNull → member k e = Return (field k e).
Proof. by destruct e. Qed.

Lemma member_Return k e v : member k e = Return v → v = field k e.
Proof. destruct e; simpl; try done; by intros [= <-]. Qed.

Lemma all_objects_not_null l e : all_objects l → e ∈ l → e ≠ JNull.
Proof.
  intros Hl He. eapply Forall_forall in Hl; [|done]. by destruct e.
Qed.

Lemma all_objects_elem l e : all_objects l → e ∈ l → ∃ o, e = JObj o.
Proof.
  intros Hl He. eapply Forall_forall in Hl; [|done]. destruct e; try done.
  by eexists.
Qed.

(** ** Create *)

Lemma is_duplicate_Throw n d e x :
  is_duplicate n d e = Throw x → statusCode x = None.
Proof.
  unfold is_duplicate. destruct (member "eventName" e) as [v|y] eqn:H1; simpl.
  - destruct (strict_eq v n); [|done].
    destruct (member "date" e) as [v'|y] eqn:H2; simpl; [done|].
    intros [= <-]. by eapply member_Throw.
  - intros [= <-]. by eapply member_Throw.
Qed.

Lemma is_duplicate_not_null n d e :
  e ≠ JNull →
  is_duplicate n d e =
    Return (strict_eq (field "eventName" e) n && strict_eq (field "date" e) d).
Proof.
  intros H. unfold is_duplicate. rewrite !member_field by done. simpl.
  by destruct (strict_eq _ n).
Qed.

Lemma is_duplicate_Return n d e b :
  is_duplicate n d e = Return b →
  b = strict_eq (field "eventName" e) n && strict_eq (field "date" e) d.
Proof.
  destruct e; [done|..]; rewrite is_duplicate_not_null by done; congruence.
Qed.

Lemma js_find_duplicate_total n d l :
  all_objects l → ∃ r, js_find (is_duplicate n d) l = Return r.
Proof.
  intros Hl. apply js_find_total. intros e He. eexists.
  apply is_duplicate_not_null. by eapply all_objects_not_null.
Qed.

Lemma generateId_not_empty now draw : generateId now draw ≠ "".
Proof. unfold generateId. by destruct (pretty now). Qed.

Lemma router_post_step now draw req_body w l n d loc :
  get_prop "eventName" req_body = Some n → truthy (Some n) = true →
  get_prop "date" req_body = Some d → truthy (Some d) = true →
  get_prop "location" req_body = Some loc → truthy (Some loc) = true →
  collection (file w) = Some l →
  router_post now draw req_body w =
    match js_find (is_duplicate (Some n) (Some d)) l with
    | Throw e => (error_handler e, record_op ReadFile w)
    | Return dup =>
        if truthy dup then
          (Response 409
             (error_body "An event with the same eventName and date already exists."),
           record_op ReadFile w)
        else
          let newEvent :=
            created_record (generateId now draw) n d loc
              (get_prop "description" req_body) (get_prop "tags" req_body) in
          match write_error w with
          | Some e =>
              (error_handler (fs_exn e),
               record_op (WriteFile (JArr (l ++ [newEvent]))) (record_op ReadFile w))
          | None =>
              (Response 201 newEvent,
               {| file := Holds (Json (JArr (l ++ [newEvent])));
                  write_error := None;
                  trace := WriteFile (JArr (l ++ [newEvent])) :: ReadFile :: trace w |})
          end
    end.
Proof.
  intros Hn Tn Hd Td Hl Tl Hc.
  unfold router_post, route, post_events, io_bind.
  rewrite Hn, Hd, Hl, Tn, Td, Tl. simpl.
  rewrite readEvents_spec. unfold collection in Hc.
  destruct (document (file w)) as [[]|]; try done. injection Hc as ->. simpl.
  destruct (js_find _ l) as [dup|e]; simpl; [|done].
  destruct (truthy dup); [done|].
  unfold writeEvents, created_record. simpl. by destruct (write_error w).
Qed.

Lemma router_post_unreadable now draw req_body w :
  collection (file w) = None →
  status (router_post now draw req_body w).1 = 400%Z
  ∨ status (router_post now draw req_body w).1 = 500%Z.
Proof.
  intros Hc. unfold router_post, route, post_events, io_bind.
  destruct (_ || _); [by left | right].
  rewrite readEvents_spec. unfold collection in Hc.
  by destruct (document (file w)) as [[]|].
Qed.

(** What a 201 tells about the request, the file and the result. *)
Lemma router_post_created now draw req_body w :
  status (router_post now draw req_body w).1 = 201%Z →
  ∃ l n d loc,
    get_prop "eventName" req_body = Some n ∧ truthy (Some n) = true
    ∧ get_prop "date" req_body = Some d ∧ truthy (Some d) = true
    ∧ get_prop "location" req_body = Some loc ∧ truthy (Some loc) = true
    ∧ collection (file w) = Some l
    ∧ (∀ e, e ∈ l →
         strict_eq (field "eventName" e) (Some n)
         && strict_eq (field "date" e) (Some d) = false)
    ∧ write_error w = None
    ∧ router_post now draw req_body w =
        (let newEvent :=
           created_record (generateId now draw) n d loc
             (get_prop "description" req_body) (get_prop "tags" req_body) in
         (Response 201 newEvent,
          {| file := Holds (Json (JArr (l ++ [newEvent])));
             write_error := None;
             trace := WriteFile (JArr (l ++ [newEvent])) :: ReadFile :: trace w |})).
Proof.
  intros H.
  destruct (truthy (get_prop "eventName" req_body)) eqn:Tn;
    [|rewrite post_events_falsy in H by auto; done].
  destruct (truthy (get_prop "date" req_body)) eqn:Td;
    [|rewrite post_events_falsy in H by auto; done].
  destruct (truthy (get_prop "location" req_body)) eqn:Tl;
    [|rewrite post_events_falsy in H by auto; done].
  destruct (truthy_is_Some _ Tn) as [n Hn].
  destruct (truthy_is_Some _ Td) as [d Hd].
  destruct (truthy_is_Some _ Tl) as [loc Hl].
  rewrite Hn in Tn. rewrite Hd in Td. rewrite Hl in Tl.
  destruct (collection (file w)) as [l|] eqn:Hc;
    [|destruct (router_post_unreadable now draw req_body w Hc) as [E|E];
      rewrite E in H; done].
  exists l, n, d, loc. repeat (split; [done|]).
  rewrite (router_post_step now draw req_body w l n d loc) in H |- * by done.
  destruct (js_find _ l) as [dup|e] eqn:Hfind.
  - destruct (truthy dup) eqn:Tdup; [done|].
    destruct (write_error w) as [e|]; [done|].
    split; [|done]. intros e He.
    destruct dup as [x|].
    + apply js_find_Some in Hfind as [Hx Hdup].
      apply is_duplicate_Return in Hdup. symmetry in Hdup.
      apply andb_true_iff in Hdup as [Hdup _]. apply strict_eq_eq in Hdup.
      destruct x; simpl in *; try done.
    + eapply js_find_None in Hfind; [|done].
      by apply is_duplicate_Return in Hfind.
  - cbn [fst] in H. rewrite error_handler_status in H; [done|].
    eapply js_find_Throw; [|done]. apply is_duplicate_Throw.
Qed.

(** C3: a create request whose [eventName], [date] and [location] are truthy
    (non-empty), on a readable and writable store of records none of which
    has the same [eventName] and [date], is answered with 201 and the new
    record.  The record has the generated, non-empty id, the three supplied
    values, [description] and [tags] with their defaults when they are not
    supplied, and it is stored as the last element of the collection written
    back to the file. *)
Theorem post_creates_record now draw req_body w l n d loc :
  get_prop "eventName" req_body = Some n → truthy (Some n) = true →
  get_prop "date" req_body = Some d → truthy (Some d) = true →
  get_prop "location" req_body = Some loc → truthy (Some loc) = true →
  collection (file w) = Some l → all_objects l →
  write_error w = None →
  (∀ e, e ∈ l → ¬ (field "eventName" e = Some n ∧ field "date" e = Some d)) →
  let newEvent :=
    created_record (generateId now draw) n d loc
      (get_prop "description" req_body) (get_prop "tags" req_body) in
  router_post now draw req_body w =
    (Response 201 newEvent,
     {| file := Holds (Json (JArr (l ++ [newEvent])));
        write_error := None;
        trace := WriteFile (JArr (l ++ [newEvent])) :: ReadFile :: trace w |})
  ∧ field "id" newEvent = Some (JStr (generateId now draw))
  ∧ generateId now draw ≠ ""
  ∧ field "eventName" newEvent = Some n
  ∧ field "date" newEvent = Some d
  ∧ field "location" newEvent = Some loc
  ∧ (get_prop "description" req_body = None →
     field "description" newEvent = Some (JStr ""))
  ∧ (get_prop "tags" req_body = None → field "tags" newEvent = Some (JArr [])).
Proof.
  intros Hn Tn Hd Td Hl Tl Hc Hobj Hw Hfresh newEvent.
  split; [|repeat split; try done].
  - rewrite (router_post_step now draw req_body w l n d loc) by done.
    destruct (js_find_duplicate_total (Some n) (Some d) l Hobj) as [dup Hfind].
    rewrite Hfind, Hw. destruct dup as [x|]; [|done].
    apply js_find_Some in Hfind as [Hx Hdup].
    apply is_duplicate_Return in Hdup. symmetry in Hdup.
    apply andb_true_iff in Hdup as [H1%strict_eq_eq H2%strict_eq_eq].
    by destruct (Hfresh x Hx).
  - apply generateId_not_empty.
  - intros H. subst newEvent. simpl. by rewrite H.
  - intros H. subst newEvent. simpl. by rewrite H.
Qed.

Lemma post_creates_record_witness :
  get_prop "eventName" expo_request = Some (JStr "Expo")
  ∧ truthy (Some (JStr "Expo")) = true
  ∧ get_prop "date" expo_request = Some (JStr "2025-02-02")
  ∧ truthy (Some (JStr "2025-02-02")) = true
  ∧ get_prop "location" expo_request = Some (JStr "Dock")
  ∧ truthy (Some (JStr "Dock")) = true
  ∧ collection (file (stored [gala])) = Some [gala]
  ∧ all_objects [gala]
  ∧ write_error (stored [gala]) = None
  ∧ (∀ e, e ∈ [gala] →
       ¬ (field "eventName" e = Some (JStr "Expo")
          ∧ field "date" e = Some (JStr "2025-02-02")))
  ∧ router_post 1700000000500 7 expo_request (stored [gala]) =
      (Response 201 expo,
       {| file := Holds (Json (JArr [gala; expo]));
          write_error := None;
          trace := [WriteFile (JArr [gala; expo]); ReadFile] |}).
Proof.
  assert (Hfresh : ∀ e, e ∈ [gala] →
            ¬ (field "eventName" e = Some (JStr "Expo")
               ∧ field "date" e = Some (JStr "2025-02-02"))).
  { intros e He. apply list_elem_of_singleton in He as ->. by intros [? _]. }
  assert (Hobj : all_objects [gala]) by (by repeat constructor).
  repeat (split; [done|]).
  exact (proj1 (post_creates_record 1700000000500 7 expo_request (stored [gala])
                  [gala] (JStr "Expo") (JStr "2025-02-02") (JStr "Dock")
                  eq_refl eq_refl eq_refl eq_refl eq_refl eq_refl eq_refl
                  Hobj eq_refl Hfresh)).
Defined.

Lemma unique_keys_snoc l x :
  unique_keys l → (∀ e, e ∈ l → ¬ same_key e x) → unique_keys (l ++ [x]).
Proof.
  intros Hl Hx i j a b Hi Hj Hne Hsame.
  apply lookup_snoc_Some in Hi as [[Hi Ha] | [-> <-]];
    apply lookup_snoc_Some in Hj as [[Hj Hb] | [-> <-]].
  - by apply (Hl i j a b).
  - apply (Hx a); [by eapply list_elem_of_lookup_2 | done].
  - apply (Hx b); [by eapply list_elem_of_lookup_2|].
    destruct Hsame. by split.
  - done.
Qed.

(** C2: for a create request whose required fields are present and whose
    [eventName] and [date] are primitives (strings, in the data model), on a
    store of records: when some stored record has the same [eventName] and
    [date], the answer is 409, the file is only read and stays as it is; and
    a create answered with 201 keeps the [(eventName, date)] pairs of the
    collection pairwise different. *)
Theorem post_duplicate_409 now draw req_body w l n d loc :
  get_prop "eventName" req_body = Some n → truthy (Some n) = true →
  get_prop "date" req_body = Some d → truthy (Some d) = true →
  get_prop "location" req_body = Some loc → truthy (Some loc) = true →
  is_primitive n = true → is_primitive d = true →
  collection (file w) = Some l → all_objects l →
  ((∃ e, e ∈ l ∧ field "eventName" e = Some n ∧ field "date" e = Some d) →
   router_post now draw req_body w =
     (Response 409
        (error_body "An event with the same eventName and date already exists."),
      record_op ReadFile w))
  ∧ (unique_keys l →
     status (router_post now draw req_body w).1 = 201%Z →
     ∃ l', collection (file (router_post now draw req_body w).2) = Some l'
           ∧ unique_keys l').
Proof.
  intros Hn Tn Hd Td Hl Tl Pn Pd Hc Hobj. split.
  - intros (e & He & He1 & He2).
    rewrite (router_post_step now draw req_body w l n d loc) by done.
    destruct (js_find_duplicate_total (Some n) (Some d) l Hobj) as [dup Hfind].
    rewrite Hfind. destruct dup as [x|].
    + apply js_find_Some in Hfind as [Hx _].
      by destruct (all_objects_elem l x Hobj Hx) as [o ->].
    + eapply js_find_None in Hfind; [|done].
      apply is_duplicate_Return in Hfind.
      rewrite He1, He2, !strict_eq_refl_primitive in Hfind; done.
  - intros Huniq H201.
    destruct (router_post_created _ _ _ _ H201)
      as (l0 & n0 & d0 & loc0 & Hn0 & _ & Hd0 & _ & _ & _ & Hc0 & Hnodup & _ & ->).
    simplify_eq. eexists. split; [done|].
    apply unique_keys_snoc; [done|].
    intros e He [H1 H2]. specialize (Hnodup e He). simpl in H1, H2.
    rewrite H1, H2, !strict_eq_refl_primitive in Hnodup; done.
Qed.

Lemma post_duplicate_409_witness :
  get_prop "eventName" gala_request = Some (JStr "Gala")
  ∧ truthy (Some (JStr "Gala")) = true
  ∧ get_prop "date" gala_request = Some (JStr "2025-01-01")
  ∧ truthy (Some (JStr "2025-01-01")) = true
  ∧ get_prop "location" gala_request = Some (JStr "Hall")
  ∧ truthy (Some (JStr "Hall")) = true
  ∧ is_primitive (JStr "Gala") = true
  ∧ is_primitive (JStr "2025-01-01") = true
  ∧ collection (file (stored [expo; gala])) = Some [expo; gala]
  ∧ all_objects [expo; gala]
  ∧ (∃ e, e ∈ [expo; gala] ∧ field "eventName" e = Some (JStr "Gala")
          ∧ field "date" e = Some (JStr "2025-01-01"))
  ∧ router_post 1700000009000 3 gala_request (stored [expo; gala]) =
      (Response 409
         (error_body "An event with the same eventName and date already exists."),
       record_op ReadFile (stored [expo; gala])).
Proof.
  assert (Hobj : all_objects [expo; gala]) by (by repeat constructor).
  assert (Hdup : ∃ e, e ∈ [expo; gala] ∧ field "eventName" e = Some (JStr "Gala")
                      ∧ field "date" e = Some (JStr "2025-01-01")).
  { exists gala. split; [|done]. right; left. }
  repeat (split; [done|]).
  exact (proj1 (post_duplicate_409 1700000009000 3 gala_request
                  (stored [expo; gala]) [expo; gala]
                  (JStr "Gala") (JStr "2025-01-01") (JStr "Hall")
                  eq_refl eq_refl eq_refl eq_refl eq_refl eq_refl
                  eq_refl eq_refl eq_refl Hobj) Hdup).
Defined.

(** ** Looking a record up by its id *)

Lemma has_id_Throw id e x : has_id id e = Throw x → statusCode x = None.
Proof.
  unfold has_id. destruct (member "id" e) as [v|y] eqn:H; simpl; [done|].
  intros [= <-]. by eapply member_Throw.
Qed.

Lemma has_id_not_null id e :
  e ≠ JNull → has_id id e = Return (strict_eq (field "id" e) (Some (JStr id))).
Proof. intros H. unfold has_id. by rewrite member_field. Qed.

Lemma has_id_Return id e b :
  has_id id e = Return b → b = strict_eq (field "id" e) (Some (JStr id)).
Proof. destruct e; [done|..]; rewrite has_id_not_null by done; congruence. Qed.

Lemma has_id_true id e :
  has_id id e = Return true → ∃ o, e = JObj o ∧ get_prop "id" o = Some (JStr id).
Proof.
  intros H%has_id_Return. symmetry in H. apply strict_eq_string in H.
  destruct e; try done. by eexists.
Qed.

Lemma has_id_false id e :
  has_id id e = Return false → field "id" e ≠ Some (JStr id).
Proof.
  intros H%has_id_Return Heq. symmetry in H.
  by rewrite Heq, strict_eq_refl_primitive in H.
Qed.

Lemma js_findIndex_id_total id l :
  all_objects l → ∃ r, js_findIndex (has_id id) l = Return r.
Proof.
  intros Hl. apply js_findIndex_total. intros e He. eexists.
  apply has_id_not_null. by eapply all_objects_not_null.
Qed.

(** On a store of records the lookup finds the first record with the id. *)
Lemma js_findIndex_id_found id l :
  all_objects l → (∃ e, e ∈ l ∧ field "id" e = Some (JStr id)) →
  ∃ i o, js_findIndex (has_id id) l = Return (Some i)
         ∧ l !! i = Some (JObj o) ∧ get_prop "id" o = Some (JStr id).
Proof.
  intros Hl (e & He & Hid).
  destruct (js_findIndex_id_total id l Hl) as [[i|] Hfind].
  - destruct (js_findIndex_Some _ _ _ Hfind) as (x & Hx & Hp & _).
    apply has_id_true in Hp as (o & -> & Ho). by exists i, o.
  - eapply js_findIndex_None in Hfind; [|done]. by apply has_id_false in Hfind.
Qed.

Lemma js_findIndex_id_missing id l :
  all_objects l → (∀ e, e ∈ l → field "id" e ≠ Some (JStr id)) →
  js_findIndex (has_id id) l = Return None.
Proof.
  intros Hl Hnone.
  destruct (js_findIndex_id_total id l Hl) as [[i|] Hfind]; [|done].
  destruct (js_findIndex_Some _ _ _ Hfind) as (x & Hx & Hp & _).
  apply has_id_true in Hp as (o & -> & Ho).
  destruct (Hnone (JObj o)); [by eapply list_elem_of_lookup_2 | done].
Qed.

(** ** Assignments to a record *)

Lemma get_prop_set_eq k v o : get_prop k (set_prop k v o) = Some v.
Proof.
  induction o as [|[k' v'] o IH]; simpl.
  - by rewrite decide_True.
  - destruct (decide (k' = k)) as [->|Hne]; simpl.
    + by rewrite decide_True.
    + by rewrite decide_False.
Qed.

Lemma get_prop_set_ne k k' v o :
  k ≠ k' → get_prop k' (set_prop k v o) = get_prop k' o.
Proof.
  intros Hne. induction o as [|[k0 v0] o IH]; simpl.
  - by rewrite decide_False.
  - destruct (decide (k0 = k)) as [->|Hne0]; simpl.
    + by rewrite !decide_False.
    + destruct (decide (k0 = k')); [done | apply IH].
Qed.

(** The properties outside [names] keep their values and their order when a
    key of [names] is assigned. *)
Lemma filter_set_prop (names : list string) k v (o : list (string * json)) :
  k ∈ names →
  filter (λ p, p.1 ∉ names) (set_prop k v o) = filter (λ p, p.1 ∉ names) o.
Proof.
  intros Hk. induction o as [|[k0 v0] o IH]; simpl.
  - by rewrite filter_cons_False by (simpl; auto).
  - destruct (decide (k0 = k)) as [->|Hne0].
    + by rewrite !filter_cons_False by (simpl; auto).
    + rewrite !filter_cons. simpl. by rewrite IH.
Qed.

Lemma assign_object k v o : assign k v (JObj o) = JObj (set_prop k v o).
Proof. done. Qed.

Lemma assign_defined_alter k v f i l :
  assign_defined k v f i l =
    alter (λ e, match v with Some x => assign k (f x) e | None => e end) i l.
Proof. destruct v; simpl; [done | by rewrite list_alter_id]. Qed.

Lemma recognized_elems :
  "location" ∈ recognized ∧ "description" ∈ recognized
  ∧ "date" ∈ recognized ∧ "tags" ∈ recognized.
Proof. unfold recognized. repeat split; repeat constructor. Qed.

Lemma not_recognized k :
  k ∉ recognized →
  "location" ≠ k ∧ "description" ≠ k ∧ "date" ≠ k ∧ "tags" ≠ k.
Proof.
  unfold recognized. rewrite !not_elem_of_cons.
  intros (? & ? & ? & ? & _). repeat split; congruence.
Qed.

Lemma patch_record_spec req_body o :
  ∃ o', patch_record req_body (JObj o) = JObj o'
    ∧ get_prop "location" o' = updated_field "location" req_body o
    ∧ get_prop "description" o' = updated_field "description" req_body o
    ∧ get_prop "date" o' = updated_field "date" req_body o
    ∧ get_prop "tags" o' =
        match get_prop "tags" req_body with
        | Some v => Some (update_tags v)
        | None => get_prop "tags" o
        end
    ∧ (∀ k, k ∉ recognized → get_prop k o' = get_prop k o)
    ∧ filter (λ p, p.1 ∉ recognized) o' = filter (λ p, p.1 ∉ recognized) o.
Proof.
  destruct recognized_elems as (Rl & Rd & Rda & Rt).
  unfold patch_record, updated_field.
  destruct (get_prop "location" req_body), (get_prop "description" req_body),
    (get_prop "date" req_body), (get_prop "tags" req_body);
    rewrite ?assign_object; eexists; (split; [reflexivity|]);
    (do 4 (split;
       [rewrite ?get_prop_set_ne by done; rewrite ?get_prop_set_eq; done|]));
    (split;
     [ intros k Hk; destruct (not_recognized k Hk) as (? & ? & ? & ?);
       rewrite ?get_prop_set_ne by done; done
     | rewrite ?filter_set_prop by done; done ]).
Qed.

(** ** Update *)

Lemma patched_alter req_body i l :
  assign_defined "tags" (get_prop "tags" req_body) update_tags i
    (assign_defined "date" (get_prop "date" req_body) (λ v, v) i
       (assign_defined "description" (get_prop "description" req_body) (λ v, v) i
          (assign_defined "location" (get_prop "location" req_body) (λ v, v) i l)))
  = alter (patch_record req_body) i l.
Proof.
  rewrite !assign_defined_alter, !list_alter_alter_eq. reflexivity.
Qed.

Lemma router_put_step id req_body w l :
  valid_update req_body →
  collection (file w) = Some l →
  router_put id req_body w =
    match js_findIndex (has_id id) l with
    | Throw e => (error_handler e, record_op ReadFile w)
    | Return None => (not_found, record_op ReadFile w)
    | Return (Some i) =>
        let l' := alter (patch_record req_body) i l in
        match write_error w with
        | Some e =>
            (error_handler (fs_exn e),
             record_op (WriteFile (JArr l')) (record_op ReadFile w))
        | None =>
            (Response 200 (default JNull (l' !! i)),
             {| file := Holds (Json (JArr l')); write_error := None;
                trace := WriteFile (JArr l') :: ReadFile :: trace w |})
        end
    end.
Proof.
  intros (Hn & Hi & Hsome) Hc.
  unfold router_put, route, put_event, io_bind.
  rewrite Hn, get_prop_rest, Hi, Hsome by apply id_not_destructured.
  rewrite readEvents_spec. unfold collection in Hc.
  destruct (document (file w)) as [[]|]; try done. injection Hc as ->. simpl.
  destruct (js_findIndex _ l) as [[i|]|e]; simpl; [|done..].
  rewrite patched_alter. unfold writeEvents. simpl.
  by destruct (write_error w).
Qed.

Lemma alter_found {A} (f : A → A) (l : list A) i x :
  l !! i = Some x →
  alter f i l = <[i := f x]> l ∧ default x (alter f i l !! i) = f x.
Proof.
  intros Hx. split.
  - rewrite list_insert_alter. apply list_alter_ext; [|done]. congruence.
  - by rewrite list_lookup_alter_eq, Hx.
Qed.

Lemma router_put_invalid id req_body w :
  ¬ valid_update req_body →
  ∃ msg, router_put id req_body w = (Response 400 (error_body msg), w).
Proof.
  intros Hinv.
  destruct (truthy (get_prop "eventName" req_body)) eqn:Hn.
  { eexists. by apply put_event_truthy_eventName. }
  destruct (truthy (get_prop "id" req_body)) eqn:Hi.
  { eexists. by apply put_event_truthy_id. }
  destruct (get_prop "location" req_body) eqn:Hl;
    [destruct Hinv; unfold valid_update; by rewrite Hl|].
  destruct (get_prop "description" req_body) eqn:Hd;
    [destruct Hinv; unfold valid_update; by rewrite Hl, Hd|].
  destruct (get_prop "tags" req_body) eqn:Ht;
    [destruct Hinv; unfold valid_update; by rewrite Hl, Hd, Ht|].
  destruct (get_prop "date" req_body) eqn:Hda;
    [destruct Hinv; unfold valid_update; by rewrite Hl, Hd, Ht, Hda|].
  eexists. by apply put_event_nothing_to_update.
Qed.

Lemma valid_update_dec req_body : valid_update req_body ∨ ¬ valid_update req_body.
Proof.
  unfold valid_update.
  destruct (truthy (get_prop "eventName" req_body)),
    (truthy (get_prop "id" req_body)), (_ && _); intuition congruence.
Qed.

(** C1: on a readable, writable store of records that has a record with the
    id of the path, an update whose body passes validation is answered with
    200 and the updated record, and the file holds the old array with that
    one record replaced.  In the new record each of [location],
    [description], [date] has the value of the request when the request
    carries it and the old value otherwise; [tags], when carried, is the
    request's array (or the one-element array of the request's value), not a
    merge with the old one; every other property, [id] and [eventName]
    among them, has its old value, in the old order; every other record of
    the array is the same.  A body that does not pass validation changes
    nothing at all. *)
Theorem put_updates_given_fields id req_body w l :
  collection (file w) = Some l → all_objects l → write_error w = None →
  (∃ e, e ∈ l ∧ field "id" e = Some (JStr id)) →
  (valid_update req_body →
   ∃ i o o',
     l !! i = Some (JObj o) ∧ get_prop "id" o = Some (JStr id)
     ∧ router_put id req_body w =
         (Response 200 (JObj o'),
          {| file := Holds (Json (JArr (<[i := JObj o']> l)));
             write_error := None;
             trace := WriteFile (JArr (<[i := JObj o']> l)) :: ReadFile :: trace w |})
     ∧ get_prop "location" o' = updated_field "location" req_body o
     ∧ get_prop "description" o' = updated_field "description" req_body o
     ∧ get_prop "date" o' = updated_field "date" req_body o
     ∧ get_prop "tags" o' =
         match get_prop "tags" req_body with
         | Some v => Some (update_tags v)
         | None => get_prop "tags" o
         end
     ∧ get_prop "id" o' = get_prop "id" o
     ∧ get_prop "eventName" o' = get_prop "eventName" o
     ∧ (∀ k, k ∉ recognized → get_prop k o' = get_prop k o)
     ∧ filter (λ p, p.1 ∉ recognized) o' = filter (λ p, p.1 ∉ recognized) o
     ∧ (∀ j, j ≠ i → <[i := JObj o']> l !! j = l !! j))
  ∧ (¬ valid_update req_body → (router_put id req_body w).2 = w).
Proof.
  intros Hc Hobj Hw Hex. split.
  - intros Hvalid.
    destruct (js_findIndex_id_found id l Hobj Hex) as (i & o & Hfind & Hi & Hid).
    destruct (patch_record_spec req_body o)
      as (o' & Hpatch & Hloc & Hdesc & Hdate & Htags & Hother & Hfilter).
    exists i, o, o'. split; [done|]. split; [done|]. split.
    { rewrite (router_put_step id req_body w l) by done.
      rewrite Hfind, Hw. cbv zeta.
      destruct (alter_found (patch_record req_body) l i (JObj o) Hi) as [Ha Hd].
      rewrite Ha, Hpatch, list_lookup_insert_eq; [done|].
      by eapply lookup_lt_Some. }
    repeat (split; [done|]).
    split; [apply Hother; unfold recognized; rewrite !not_elem_of_cons;
            repeat split; try done; apply not_elem_of_nil|].
    split; [apply Hother; unfold recognized; rewrite !not_elem_of_cons;
            repeat split; try done; apply not_elem_of_nil|].
    repeat (split; [done|]).
    intros j Hj. by apply list_lookup_insert_ne.
  - intros Hinv. destruct (router_put_invalid id req_body w Hinv) as [msg ->].
    done.
Qed.

Lemma put_updates_given_fields_witness :
  collection (file (stored [expo; gala])) = Some [expo; gala]
  ∧ all_objects [expo; gala]
  ∧ write_error (stored [expo; gala]) = None
  ∧ (∃ e, e ∈ [expo; gala] ∧ field "id" e = Some (JStr "1700000000000-42"))
  ∧ valid_update [("location", JStr "New Place")]
  ∧ ∃ i o o',
      [expo; gala] !! i = Some (JObj o)
      ∧ get_prop "id" o = Some (JStr "1700000000000-42")
      ∧ router_put "1700000000000-42" [("location", JStr "New Place")]
          (stored [expo; gala]) =
          (Response 200 (JObj o'),
           {| file := Holds (Json (JArr (<[i := JObj o']> [expo; gala])));
              write_error := None;
              trace := [WriteFile (JArr (<[i := JObj o']> [expo; gala])); ReadFile] |})
      ∧ get_prop "location" o' = Some (JStr "New Place")
      ∧ get_prop "eventName" o' = get_prop "eventName" o.
Proof.
  assert (Hobj : all_objects [expo; gala]) by (by repeat constructor).
  assert (Hex : ∃ e, e ∈ [expo; gala]
                     ∧ field "id" e = Some (JStr "1700000000000-42")).
  { exists gala. split; [|done]. right; left. }
  assert (Hvalid : valid_update [("location", JStr "New Place")]) by done.
  repeat (split; [done|]).
  destruct (proj1 (put_updates_given_fields "1700000000000-42"
                     [("location", JStr "New Place")] (stored [expo; gala])
                     [expo; gala] eq_refl Hobj eq_refl Hex) Hvalid)
    as (i & o & o' & Hi & Hid & Heq & Hloc & _ & _ & _ & _ & Hname & _).
  exists i, o, o'. by repeat (split; [done|]).
Defined.

Lemma router_put_unreadable id req_body w :
  valid_update req_body → collection (file w) = None →
  status (router_put id req_body w).1 = 500%Z.
Proof.
  intros (Hn & Hi & Hsome) Hc.
  unfold router_put, route, put_event, io_bind.
  rewrite Hn, get_prop_rest, Hi, Hsome by apply id_not_destructured.
  rewrite readEvents_spec. unfold collection in Hc.
  by destruct (document (file w)) as [[]|].
Qed.

(** What a 200 tells about an update. *)
Lemma router_put_updated id req_body w :
  status (router_put id req_body w).1 = 200%Z →
  ∃ l i o,
    valid_update req_body ∧ collection (file w) = Some l
    ∧ l !! i = Some (JObj o) ∧ get_prop "id" o = Some (JStr id)
    ∧ router_put id req_body w =
        (Response 200 (patch_record req_body (JObj o)),
         {| file := Holds (Json (JArr (<[i := patch_record req_body (JObj o)]> l)));
            write_error := None;
            trace := WriteFile (JArr (<[i := patch_record req_body (JObj o)]> l))
                       :: ReadFile :: trace w |}).
Proof.
  intros H.
  destruct (valid_update_dec req_body) as [Hvalid | Hinv];
    [|destruct (router_put_invalid id req_body w Hinv) as [msg E];
      rewrite E in H; done].
  destruct (collection (file w)) as [l|] eqn:Hc;
    [|rewrite router_put_unreadable in H; done].
  rewrite (router_put_step id req_body w l) in H |- * by done.
  destruct (js_findIndex _ l) as [[i|]|e] eqn:Hfind; [| done |].
  - destruct (write_error w) as [e|]; [done|].
    destruct (js_findIndex_Some _ _ _ Hfind) as (x & Hx & Hp & _).
    apply has_id_true in Hp as (o & -> & Ho).
    exists l, i, o. repeat (split; [done|]). cbv zeta.
    destruct (alter_found (patch_record req_body) l i (JObj o) Hx) as [Ha Hd].
    rewrite Ha, list_lookup_insert_eq; [done|]. by eapply lookup_lt_Some.
  - cbn [fst] in H. rewrite error_handler_status in H; [done|].
    eapply js_findIndex_Throw; [|done]. apply has_id_Throw.
Qed.

(** ** Delete *)

Lemma js_filter_keeps id l :
  all_objects l →
  js_filter (λ e, out_bind (has_id id e) (λ b, Return (negb b))) l =
    Return (List.filter (keeps id) l).
Proof.
  intros Hl. apply js_filter_pure. intros e He.
  rewrite has_id_not_null; [done|]. by eapply all_objects_not_null.
Qed.

Lemma router_delete_step id w l :
  collection (file w) = Some l → all_objects l →
  router_delete id w =
    match js_findIndex (has_id id) l with
    | Throw e => (error_handler e, record_op ReadFile w)
    | Return None => (not_found, record_op ReadFile w)
    | Return (Some _) =>
        let updated := List.filter (keeps id) l in
        match write_error w with
        | Some e =>
            (error_handler (fs_exn e),
             record_op (WriteFile (JArr updated)) (record_op ReadFile w))
        | None =>
            (deleted,
             {| file := Holds (Json (JArr updated)); write_error := None;
                trace := WriteFile (JArr updated) :: ReadFile :: trace w |})
        end
    end.
Proof.
  intros Hc Hobj. unfold router_delete, route, delete_event, io_bind.
  rewrite readEvents_spec. unfold collection in Hc.
  destruct (document (file w)) as [[]|]; try done. injection Hc as ->. simpl.
  destruct (js_findIndex _ l) as [[i|]|e]; simpl; [|done..].
  rewrite js_filter_keeps by done. unfold writeEvents. simpl.
  by destruct (write_error w).
Qed.

Lemma keeps_true id e : keeps id e = true ↔ field "id" e ≠ Some (JStr id).
Proof.
  unfold keeps. rewrite negb_true_iff, <- not_true_iff_false.
  by rewrite strict_eq_string.
Qed.

Lemma filter_keeps_all id l :
  (∀ e, e ∈ l → field "id" e ≠ Some (JStr id)) → List.filter (keeps id) l = l.
Proof.
  induction l as [|x l IH]; simpl; intros H; [done|].
  rewrite (proj2 (keeps_true id x)) by (apply H; left).
  rewrite IH; [done|]. intros e He. apply H. by right.
Qed.

Lemma filter_keeps_unique id l1 e l2 :
  field "id" e = Some (JStr id) →
  (∀ x, x ∈ l1 ++ l2 → field "id" x ≠ Some (JStr id)) →
  List.filter (keeps id) (l1 ++ e :: l2) = l1 ++ l2.
Proof.
  intros He Hothers. rewrite List.filter_app. simpl.
  destruct (keeps id e) eqn:Hk; [by apply keeps_true in Hk|].
  rewrite !filter_keeps_all; [done|..];
    intros x Hx; apply Hothers, elem_of_app; auto.
Qed.

Lemma filter_keeps_no_id id l e :
  e ∈ List.filter (keeps id) l → field "id" e ≠ Some (JStr id).
Proof.
  rewrite list_elem_of_In, List.filter_In. intros [_ H]. by apply keeps_true.
Qed.

Lemma all_objects_filter q l : all_objects l → all_objects (List.filter q l).
Proof.
  unfold all_objects. rewrite !Forall_forall. intros H e He. apply H.
  apply list_elem_of_In. apply list_elem_of_In, List.filter_In in He. tauto.
Qed.

(** C8, as stated, fails for updates: validation comes before the lookup, so
    an update with an empty body on an id that is not stored is answered
    with 400, not 404. *)
Lemma put_missing_id_counterexample :
  ¬ ((∀ e, e ∈ [gala] → field "id" e ≠ Some (JStr "no-such-id")) →
     status (router_put "no-such-id" [] (stored [gala])).1 = 404%Z
     ∧ file (router_put "no-such-id" [] (stored [gala])).2 = file (stored [gala])).
Proof.
  intros H. destruct H as [H _].
  - intros e He. apply list_elem_of_singleton in He as ->. done.
  - vm_compute in H. discriminate H.
Qed.

(** C8, amended: on a store of records, an update whose body passes
    validation, or a delete, on an id that no record has is answered with
    404; the file is read and stays as it is.  A delete on an id that some
    record has is answered with 200 and a confirmation, and the file holds
    the records with another id, in their order: the array without that
    record when it is the only one with the id.  A second delete of the
    same id is answered with 404. *)
Theorem delete_and_missing_id id w l :
  collection (file w) = Some l → all_objects l →
  (∀ req_body,
     valid_update req_body →
     (∀ e, e ∈ l → field "id" e ≠ Some (JStr id)) →
     router_put id req_body w = (not_found, record_op ReadFile w))
  ∧ ((∀ e, e ∈ l → field "id" e ≠ Some (JStr id)) →
     router_delete id w = (not_found, record_op ReadFile w))
  ∧ (write_error w = None →
     (∃ e, e ∈ l ∧ field "id" e = Some (JStr id)) →
     let w' :=
       {| file := Holds (Json (JArr (List.filter (keeps id) l)));
          write_error := None;
          trace := WriteFile (JArr (List.filter (keeps id) l)) :: ReadFile :: trace w |} in
     router_delete id w = (deleted, w')
     ∧ router_delete id w' = (not_found, record_op ReadFile w'))
  ∧ (∀ l1 e l2,
       l = l1 ++ e :: l2 → field "id" e = Some (JStr id) →
       (∀ x, x ∈ l1 ++ l2 → field "id" x ≠ Some (JStr id)) →
       List.filter (keeps id) l = l1 ++ l2).
Proof.
  intros Hc Hobj. split; [|split; [|split]].
  - intros req_body Hvalid Hnone.
    rewrite (router_put_step id req_body w l) by done.
    by rewrite js_findIndex_id_missing.
  - intros Hnone. rewrite (router_delete_step id w l) by done.
    by rewrite js_findIndex_id_missing.
  - intros Hw Hex w'. split.
    + destruct (js_findIndex_id_found id l Hobj Hex) as (i & o & Hfind & _).
      rewrite (router_delete_step id w l) by done. by rewrite Hfind, Hw.
    + rewrite (router_delete_step id w' (List.filter (keeps id) l));
        [|done | by apply all_objects_filter].
      rewrite js_findIndex_id_missing;
        [done | by apply all_objects_filter | apply filter_keeps_no_id].
  - intros l1 e l2 -> He Hothers. by apply filter_keeps_unique.
Qed.

Lemma delete_and_missing_id_witness :
  collection (file (stored [expo; gala])) = Some [expo; gala]
  ∧ all_objects [expo; gala]
  ∧ router_delete "1700000000500-7" (stored [expo; gala]) =
      (deleted,
       {| file := Holds (Json (JArr [gala])); write_error := None;
          trace := [WriteFile (JArr [gala]); ReadFile] |})
  ∧ router_delete "1700000000500-7"
      {| file := Holds (Json (JArr [gala])); write_error := None;
         trace := [WriteFile (JArr [gala]); ReadFile] |} =
      (not_found,
       {| file := Holds (Json (JArr [gala])); write_error := None;
          trace := [ReadFile; WriteFile (JArr [gala]); ReadFile] |}).
Proof.
  assert (Hobj : all_objects [expo; gala]) by (by repeat constructor).
  assert (Hex : ∃ e, e ∈ [expo; gala]
                     ∧ field "id" e = Some (JStr "1700000000500-7")).
  { exists expo. split; [left | done]. }
  split; [done|]. split; [done|].
  exact (proj1 (proj2 (proj2 (delete_and_missing_id "1700000000500-7"
                                (stored [expo; gala]) [expo; gala]
                                eq_refl Hobj))) eq_refl Hex).
Defined.

(** ** Generated ids *)

Lemma append_nil s : "" +:+ s = s.
Proof. reflexivity. Qed.

Lemma append_cons c a s : String c a +:+ s = String c (a +:+ s).
Proof. reflexivity. Qed.

Lemma no_dash_app_dash a b : ¬ no_dash (a +:+ "-" +:+ b).
Proof.
  induction a as [|c a IH]; rewrite ?append_cons, ?append_nil; simpl.
  - by intros [? _].
  - by intros [_ ?].
Qed.

Lemma split_at_dash a b c d :
  no_dash a → no_dash c → a +:+ "-" +:+ b = c +:+ "-" +:+ d → a = c ∧ b = d.
Proof.
  revert c. induction a as [|x a IH]; intros [|y c];
    rewrite ?append_cons, ?append_nil; simpl.
  - intros _ _ [= ->]. done.
  - intros _ [Hy _] [= <- _]. done.
  - intros [Hx _] _ [= -> _]. done.
  - intros [_ Ha] [_ Hc] [= -> H]. destruct (IH c Ha Hc H) as [-> ->]. done.
Qed.

Lemma pretty_N_char_no_dash x : pretty_N_char x ≠ "-"%char.
Proof. unfold pretty_N_char. by repeat case_match. Qed.

Lemma pretty_N_go_no_dash x s : no_dash s → no_dash (pretty_N_go x s).
Proof.
  revert s. induction (N.lt_wf_0 x) as [x _ IH]; intros s Hs.
  assert (x = 0 ∨ 0 < x)%N as [-> | Hpos] by lia.
  - by rewrite pretty_N_go_0.
  - rewrite pretty_N_go_step by done. apply IH.
    + by apply N.div_lt.
    + split; [apply pretty_N_char_no_dash | done].
Qed.

Lemma pretty_N_no_dash (x : N) : no_dash (pretty x).
Proof.
  unfold pretty, pretty_N. case_decide; [by repeat split|].
  by apply pretty_N_go_no_dash.
Qed.

Lemma pretty_Z_no_dash (t : Z) : (0 ≤ t)%Z → no_dash (pretty t).
Proof.
  destruct t as [|p|p]; intros Ht; [by repeat split | | lia].
  apply (pretty_N_no_dash (N.pos p)).
Qed.

Lemma pretty_Z_neg (p : positive) :
  pretty (Z.neg p) = String "-" (pretty (N.pos p)).
Proof. done. Qed.

(** Two generated ids are equal only for the same clock reading and the
    same draw. *)
Lemma generateId_inj t1 r1 t2 r2 :
  generateId t1 r1 = generateId t2 r2 → t1 = t2 ∧ r1 = r2.
Proof.
  unfold generateId. intros H.
  assert (Hmixed : ∀ (t : Z) (p : positive) (ra rb : N),
            (0 ≤ t)%Z →
            pretty t +:+ "-" +:+ pretty ra
              ≠ pretty (Z.neg p) +:+ "-" +:+ pretty rb).
  { intros t p ra rb Ht E. rewrite pretty_Z_neg in E.
    pose proof (pretty_Z_no_dash t Ht) as Hd.
    destruct (pretty t) as [|c s]; rewrite ?append_cons, ?append_nil in E.
    - injection E as E. apply (no_dash_app_dash (pretty (N.pos p)) (pretty rb)).
      rewrite ?append_cons, ?append_nil, <- E. apply pretty_N_no_dash.
    - injection E as -> _. by destruct Hd. }
  destruct (Z.lt_ge_cases t1 0) as [H1 | H1], (Z.lt_ge_cases t2 0) as [H2 | H2].
  - destruct t1 as [|p1|p1], t2 as [|p2|p2]; try lia.
    rewrite !pretty_Z_neg, !append_cons in H. injection H as H.
    apply split_at_dash in H as [Hp Hr]; [|apply pretty_N_no_dash..].
    apply (inj pretty) in Hp. apply (inj pretty) in Hr. by simplify_eq.
  - destruct t1 as [|p1|p1]; try lia. by destruct (Hmixed t2 p1 r2 r1 H2).
  - destruct t2 as [|p2|p2]; try lia. by destruct (Hmixed t1 p2 r1 r2 H1).
  - apply split_at_dash in H as [Ht Hr]; [|by apply pretty_Z_no_dash..].
    apply (inj pretty) in Ht. apply (inj pretty) in Hr. done.
Qed.

(** C4, as stated, fails: the id depends only on the clock and on the draw,
    and the route does not compare it with the stored ids.  A create that
    gets the clock reading and the draw of an earlier create is answered
    with 201 and gives the new record the id of the stored one. *)
Lemma post_id_collision_counterexample :
  ¬ (status (router_post 1700000000000 42 expo_request (stored [gala])).1 = 201%Z →
     ∀ e, e ∈ [gala] →
       field "id" e
       ≠ field "id" (body (router_post 1700000000000 42 expo_request (stored [gala])).1)).
Proof.
  intros H. apply (H eq_refl gala); [left | reflexivity].
Qed.

(** C4, amended: a create answered with 201 gives the new record the id
    [generateId now draw], the clock reading and the draw joined by a dash.
    Two such ids are equal only for the same reading and the same draw, so
    the new id differs from every stored id that was generated from another
    reading or another draw; and when no stored record carries the new id,
    ids that were pairwise distinct stay pairwise distinct. *)
Theorem post_id_distinct_unless_repeated now draw req_body w l :
  collection (file w) = Some l →
  status (router_post now draw req_body w).1 = 201%Z →
  ∃ newEvent,
    body (router_post now draw req_body w).1 = newEvent
    ∧ collection (file (router_post now draw req_body w).2) = Some (l ++ [newEvent])
    ∧ field "id" newEvent = Some (JStr (generateId now draw))
    ∧ (∀ t r e,
         e ∈ l → field "id" e = Some (JStr (generateId t r)) →
         (t, r) ≠ (now, draw) → field "id" e ≠ field "id" newEvent)
    ∧ ((∀ e, e ∈ l → field "id" e ≠ Some (JStr (generateId now draw))) →
       NoDup (ids l) → NoDup (ids (l ++ [newEvent]))).
Proof.
  intros Hc H201.
  destruct (router_post_created _ _ _ _ H201)
    as (l0 & n & d & loc & _ & _ & _ & _ & _ & _ & Hc0 & _ & _ & ->).
  simplify_eq. eexists. split; [done|]. split; [done|]. split; [done|]. split.
  - intros t r e He Hid Hne. rewrite Hid. simpl. intros [= Heq].
    apply generateId_inj in Heq as [-> ->]. done.
  - intros Hfresh Hnodup. unfold ids. rewrite fmap_app. apply NoDup_app.
    split; [done|]. split; [|apply NoDup_singleton].
    intros x Hx Hin. apply list_elem_of_singleton in Hin. simpl in Hin.
    apply list_elem_of_fmap in Hx as (e & -> & He). by apply (Hfresh e).
Qed.

Lemma post_id_distinct_unless_repeated_witness :
  collection (file (stored [gala])) = Some [gala]
  ∧ status (router_post 1700000000500 7 expo_request (stored [gala])).1 = 201%Z
  ∧ ∃ newEvent,
      body (router_post 1700000000500 7 expo_request (stored [gala])).1 = newEvent
      ∧ collection (file (router_post 1700000000500 7 expo_request (stored [gala])).2)
        = Some ([gala] ++ [newEvent])
      ∧ field "id" newEvent = Some (JStr (generateId 1700000000500 7))
      ∧ (∀ t r e,
           e ∈ [gala] → field "id" e = Some (JStr (generateId t r)) →
           (t, r) ≠ (1700000000500%Z, 7%N) → field "id" e ≠ field "id" newEvent)
      ∧ ((∀ e, e ∈ [gala] → field "id" e ≠ Some (JStr (generateId 1700000000500 7))) →
         NoDup (ids [gala]) → NoDup (ids ([gala] ++ [newEvent]))).
Proof.
  split; [reflexivity|]. split; [reflexivity|].
  apply (post_id_distinct_unless_repeated 1700000000500 7 expo_request
           (stored [gala]) [gala]); reflexivity.
Defined.

(** ** Tags are stored as an array *)

Lemma create_tags_array tags : ∃ items, create_tags tags = JArr items.
Proof.
  destruct tags as [t|]; [|by eexists]. unfold create_tags.
  destruct t; try destruct (truthy _); by eexists.
Qed.

Lemma update_tags_array t : ∃ items, update_tags t = JArr items.
Proof. destruct t; by eexists. Qed.

(** C10: after a create answered with 201 the new record's [tags] is
    [create_tags] of the request's value, and after an update answered with
    200 the record's [tags] is [update_tags] of the request's value when the
    request carries one and the old [tags] otherwise.  Both functions always
    give an array: an array is taken as it is; of another value, create
    makes the one-element array when it is truthy and the empty array when
    it is falsy or missing, and update makes the one-element array.  So a
    collection in which every record's [tags] is an array stays so. *)
Theorem stored_tags_array now draw id req_body w l :
  collection (file w) = Some l →
  (status (router_post now draw req_body w).1 = 201%Z →
   ∃ newEvent,
     body (router_post now draw req_body w).1 = newEvent
     ∧ collection (file (router_post now draw req_body w).2) = Some (l ++ [newEvent])
     ∧ field "tags" newEvent = Some (create_tags (get_prop "tags" req_body))
     ∧ tags_is_array newEvent
     ∧ (Forall tags_is_array l → Forall tags_is_array (l ++ [newEvent])))
  ∧ (status (router_put id req_body w).1 = 200%Z →
     ∃ i o o',
       l !! i = Some (JObj o)
       ∧ body (router_put id req_body w).1 = JObj o'
       ∧ collection (file (router_put id req_body w).2) = Some (<[i := JObj o']> l)
       ∧ get_prop "tags" o' =
           match get_prop "tags" req_body with
           | Some t => Some (update_tags t)
           | None => get_prop "tags" o
           end
       ∧ (is_Some (get_prop "tags" req_body) → tags_is_array (JObj o'))
       ∧ (Forall tags_is_array l → Forall tags_is_array (<[i := JObj o']> l)))
  ∧ (∀ tags, ∃ items, create_tags tags = JArr items)
  ∧ (∀ t, ∃ items, update_tags t = JArr items)
  ∧ (∀ items, create_tags (Some (JArr items)) = JArr items
              ∧ update_tags (JArr items) = JArr items)
  ∧ (∀ t, is_array (Some t) = false →
          create_tags (Some t) = (if truthy (Some t) then JArr [t] else JArr [])
          ∧ update_tags t = JArr [t])
  ∧ create_tags None = JArr [].
Proof.
  intros Hc. split; [|split; [|split; [|split; [|split; [|split]]]]].
  - intros H201.
    destruct (router_post_created _ _ _ _ H201)
      as (l0 & n & d & loc & _ & _ & _ & _ & _ & _ & Hc0 & _ & _ & ->).
    simplify_eq. eexists. split; [done|]. split; [done|]. split; [done|].
    assert (Harr : tags_is_array
              (created_record (generateId now draw) n d loc
                 (get_prop "description" req_body) (get_prop "tags" req_body))).
    { unfold tags_is_array. simpl.
      by destruct (create_tags_array (get_prop "tags" req_body)) as [items ->]. }
    split; [done|]. intros Hl. apply Forall_app. split; [done|].
    by apply Forall_singleton.
  - intros H200.
    destruct (router_put_updated _ _ _ H200)
      as (l0 & i & o & _ & Hc0 & Hi & _ & ->).
    simplify_eq.
    destruct (patch_record_spec req_body o)
      as (o' & -> & _ & _ & _ & Htags & _ & _).
    exists i, o, o'. repeat (split; [done|]).
    assert (Harr : is_array (get_prop "tags" o) = true ∨ is_Some (get_prop "tags" req_body) →
                   tags_is_array (JObj o')).
    { unfold tags_is_array. simpl. rewrite Htags.
      destruct (get_prop "tags" req_body) as [t|].
      - intros _. by destruct (update_tags_array t) as [items ->].
      - intros [H | [? H]]; done. }
    split; [auto|]. intros Hl. apply Forall_insert; [done|].
    apply Harr. left. by apply (Forall_lookup_1 _ _ _ _ Hl Hi).
  - apply create_tags_array.
  - apply update_tags_array.
  - done.
  - intros t Ht. by destruct t.
  - done.
Qed.

Lemma stored_tags_array_witness :
  collection (file (stored [gala])) = Some [gala]
  ∧ status (router_post 1700000000500 7 expo_request (stored [gala])).1 = 201%Z
  ∧ ∃ newEvent,
      body (router_post 1700000000500 7 expo_request (stored [gala])).1 = newEvent
      ∧ collection (file (router_post 1700000000500 7 expo_request (stored [gala])).2)
        = Some ([gala] ++ [newEvent])
      ∧ field "tags" newEvent = Some (create_tags (Some (JStr "b2b")))
      ∧ tags_is_array newEvent
      ∧ (Forall tags_is_array [gala] → Forall tags_is_array ([gala] ++ [newEvent])).
Proof.
  split; [reflexivity|]. split; [reflexivity|].
  exact (proj1 (stored_tags_array 1700000000500 7 "1700000000000-42" expo_request
                  (stored [gala]) [gala] eq_refl) eq_refl).
Defined.

(** ** Worked examples *)

(** The round trip of the specification: create on a missing file, read,
    update, read, delete, read. *)
Example round_trip :
  let (r1, w1) := router_post 1700000000500 7 expo_request no_file in
  let (r2, w2) := router_get w1 in
  let (r3, w3) := router_put "1700000000500-7" [("location", JStr "Pier")] w2 in
  let (r4, w4) := router_get w3 in
  let (r5, w5) := router_delete "1700000000500-7" w4 in
  let (r6, w6) := router_get w5 in
  r1 = Response 201 expo
  ∧ r2 = Response 200 (JArr [expo])
  ∧ status r3 = 200%Z
  ∧ field "location" (body r3) = Some (JStr "Pier")
  ∧ field "eventName" (body r3) = Some (JStr "Expo")
  ∧ r4 = Response 200 (JArr [body r3])
  ∧ r5 = deleted
  ∧ r6 = Response 200 (JArr [])
  ∧ trace w6 =
      [ReadFile; WriteFile (JArr []); ReadFile; ReadFile;
       WriteFile (JArr [body r3]); ReadFile; ReadFile;
       WriteFile (JArr [expo]); ReadFile].
Proof. vm_compute. repeat split. Qed.

(** A document that parses but is not an array, or that has a [null]
    element, makes the routes that search it fail with 500. *)
Example search_in_malformed_document :
  status (router_delete "x" (World (Holds (Json (JNum 3))) None [])).1 = 500%Z
  ∧ status (router_delete "x" (stored [JNull])).1 = 500%Z
  ∧ status (router_post 1 2 gala_request (stored [JNull; gala])).1 = 500%Z
  ∧ status (router_post 1 2 gala_request (stored [gala; JNull])).1 = 409%Z.
Proof. vm_compute. repeat split. Qed.

(** A write that fails gives 500 and leaves the file as it was. *)
Example write_failure :
  let w := World (Holds (Json (JArr [gala]))) (Some (FsError "EACCES" "permission denied")) [] in
  router_post 1700000000500 7 expo_request w =
    (Response 500 (error_body "permission denied"),
     World (Holds (Json (JArr [gala]))) (Some (FsError "EACCES" "permission denied"))
       [WriteFile (JArr [gala; expo]); ReadFile]).
Proof. reflexivity. Qed.

(** Strict equality compares arrays by reference: a name that is an array
    never matches a stored one, so the duplicate check does not fire. *)
Example array_valued_name_is_no_duplicate :
  let named := JObj [("id", JStr "1-1"); ("eventName", JArr [JStr "a"]);
                     ("date", JStr "d"); ("location", JStr "x");
                     ("description", JStr ""); ("tags", JArr [])] in
  status (router_post 2 2
            [("eventName", JArr [JStr "a"]); ("date", JStr "d");
             ("location", JStr "x")]
            (stored [named])).1 = 201%Z.
Proof. reflexivity. Qed.

(** * Further properties of the routes *)

(** ** Every way a route can end *)

Lemma error_handler_error_response e : error_response (error_handler e).
Proof.
  unfold error_response, error_handler. simpl. eexists. split; [|done].
  case_bool_decide; done.
Qed.

Lemma array_method_Throw name v x :
  array_method name v = Throw x → statusCode x = None.
Proof. destruct v; simpl; try done; by intros [= <-]. Qed.

Lemma other_id_Throw id e x : other_id id e = Throw x → statusCode x = None.
Proof.
  unfold other_id. destruct (has_id id e) as [b|y] eqn:H; simpl; [done|].
  intros [= <-]. by eapply has_id_Throw.
Qed.

Lemma js_filter_Throw p l x :
  (∀ e y, p e = Throw y → statusCode y = None) →
  js_filter p l = Throw x → statusCode x = None.
Proof.
  intros Hp. induction l as [|y l IH]; simpl; [done|].
  destruct (p y) as [b|z] eqn:Hy; simpl.
  - destruct (js_filter p l) as [r|z]; simpl; [done|].
    intros [= <-]. by apply IH.
  - intros [= <-]. eauto.
Qed.

(** The routes that search the collection, when the file does not give
    one: the read fails, or the document is not an array. *)
Lemma no_collection_Throw {A} name (k : list json → IO A) w :
  collection (file w) = None →
  ∃ e, statusCode e = None
       ∧ io_bind readEvents (λ events, io_bind (lift (array_method name events)) k) w
         = (Throw e, record_op ReadFile w).
Proof.
  intros Hc. unfold io_bind. rewrite readEvents_spec. unfold collection in Hc.
  destruct (document (file w)) as [v|]; [|by exists read_failure].
  unfold lift. destruct (array_method name v) as [l|e] eqn:Hm.
  - by destruct v.
  - exists e. split; [by eapply array_method_Throw | done].
Qed.

Lemma collection_found {A} name (k : list json → IO A) w l :
  collection (file w) = Some l →
  io_bind readEvents (λ events, io_bind (lift (array_method name events)) k) w
  = k l (record_op ReadFile w).
Proof.
  intros Hc. unfold io_bind. rewrite readEvents_spec. unfold collection in Hc.
  destruct (document (file w)) as [[]|]; try done. by injection Hc as ->.
Qed.

Lemma router_post_no_collection now draw req_body w :
  truthy (get_prop "eventName" req_body) = true →
  truthy (get_prop "date" req_body) = true →
  truthy (get_prop "location" req_body) = true →
  collection (file w) = None →
  ∃ e, statusCode e = None
       ∧ router_post now draw req_body w = (error_handler e, record_op ReadFile w).
Proof.
  intros Tn Td Tl Hc. unfold router_post, route, post_events.
  rewrite Tn, Td, Tl. simpl.
  edestruct (no_collection_Throw (A := response) "find") as (e & He & ->); [done|].
  by exists e.
Qed.

Lemma router_put_no_collection id req_body w :
  valid_update req_body → collection (file w) = None →
  ∃ e, statusCode e = None
       ∧ router_put id req_body w = (error_handler e, record_op ReadFile w).
Proof.
  intros (Hn & Hi & Hsome) Hc. unfold router_put, route, put_event.
  rewrite Hn, get_prop_rest, Hi, Hsome by apply id_not_destructured.
  edestruct (no_collection_Throw (A := response) "findIndex") as (e & He & ->);
    [done|].
  by exists e.
Qed.

Lemma router_delete_no_collection id w :
  collection (file w) = None →
  ∃ e, statusCode e = None
       ∧ router_delete id w = (error_handler e, record_op ReadFile w).
Proof.
  intros Hc. unfold router_delete, route, delete_event.
  edestruct (no_collection_Throw (A := response) "findIndex") as (e & He & ->);
    [done|].
  by exists e.
Qed.

(** Delete on a collection, whatever its elements are. *)
Lemma router_delete_scan id w l :
  collection (file w) = Some l →
  router_delete id w =
    match js_findIndex (has_id id) l with
    | Throw e => (error_handler e, record_op ReadFile w)
    | Return None => (not_found, record_op ReadFile w)
    | Return (Some _) =>
        match js_filter (other_id id) l with
        | Throw e => (error_handler e, record_op ReadFile w)
        | Return updated =>
            match write_error w with
            | Some e =>
                (error_handler (fs_exn e),
                 record_op (WriteFile (JArr updated)) (record_op ReadFile w))
            | None =>
                (deleted,
                 {| file := Holds (Json (JArr updated)); write_error := None;
                    trace := WriteFile (JArr updated) :: ReadFile :: trace w |})
            end
        end
    end.
Proof.
  intros Hc. unfold router_delete, route, delete_event.
  rewrite (collection_found "findIndex" _ w l) by done.
  unfold io_bind, lift, other_id.
  destruct (js_findIndex _ l) as [[i|]|e]; simpl; [|done..].
  destruct (js_filter _ l) as [updated|e]; simpl; [|done].
  unfold writeEvents. simpl. by destruct (write_error w).
Qed.

Lemma router_post_ends now draw req_body w :
  router_post now draw req_body w =
    (Response 400 (error_body "eventName, date, and location are required."), w)
  ∨ (∃ e, statusCode e = None
          ∧ router_post now draw req_body w = (error_handler e, record_op ReadFile w))
  ∨ router_post now draw req_body w =
      (Response 409
         (error_body "An event with the same eventName and date already exists."),
       record_op ReadFile w)
  ∨ (∃ e l,
       router_post now draw req_body w =
         (error_handler (fs_exn e),
          record_op (WriteFile (JArr l)) (record_op ReadFile w)))
  ∨ (∃ l new,
       collection (file w) = Some l
       ∧ router_post now draw req_body w =
           (Response 201 new,
            {| file := Holds (Json (JArr (l ++ [new]))); write_error := None;
               trace := WriteFile (JArr (l ++ [new])) :: ReadFile :: trace w |})).
Proof.
  destruct (truthy (get_prop "eventName" req_body)) eqn:Tn;
    [|left; apply post_events_falsy; auto].
  destruct (truthy (get_prop "date" req_body)) eqn:Td;
    [|left; apply post_events_falsy; auto].
  destruct (truthy (get_prop "location" req_body)) eqn:Tl;
    [|left; apply post_events_falsy; auto].
  right.
  destruct (collection (file w)) as [l|] eqn:Hc;
    [|left; by apply router_post_no_collection].
  destruct (truthy_is_Some _ Tn) as [n Hn].
  destruct (truthy_is_Some _ Td) as [d Hd].
  destruct (truthy_is_Some _ Tl) as [loc Hl].
  rewrite Hn in Tn. rewrite Hd in Td. rewrite Hl in Tl.
  rewrite (router_post_step now draw req_body w l n d loc) by done.
  destruct (js_find _ l) as [dup|e] eqn:Hfind.
  - right. destruct (truthy dup); [by left | right].
    destruct (write_error w) as [e|]; [left | right]; by repeat eexists.
  - left. exists e. split; [|done].
    eapply js_find_Throw; [|done]. apply is_duplicate_Throw.
Qed.

Lemma router_get_ends w :
  (∃ v, document (file w) = Some v
        ∧ router_get w = (Response 200 v, record_op ReadFile w))
  ∨ (document (file w) = None
     ∧ router_get w = (error_handler read_failure, record_op ReadFile w)).
Proof.
  unfold router_get, route, get_events, io_bind. rewrite readEvents_spec.
  destruct (document (file w)) as [v|]; [left; by exists v | by right].
Qed.

Lemma router_put_ends id req_body w :
  (∃ msg, msg ≠ "" ∧ router_put id req_body w = (Response 400 (error_body msg), w))
  ∨ (∃ e, statusCode e = None
          ∧ router_put id req_body w = (error_handler e, record_op ReadFile w))
  ∨ router_put id req_body w = (not_found, record_op ReadFile w)
  ∨ (∃ e l,
       router_put id req_body w =
         (error_handler (fs_exn e),
          record_op (WriteFile (JArr l)) (record_op ReadFile w)))
  ∨ (∃ l i x,
       collection (file w) = Some l ∧ l !! i = Some x
       ∧ router_put id req_body w =
           (Response 200 (patch_record req_body x),
            {| file := Holds (Json (JArr (<[i := patch_record req_body x]> l)));
               write_error := None;
               trace := WriteFile (JArr (<[i := patch_record req_body x]> l))
                          :: ReadFile :: trace w |})).
Proof.
  destruct (valid_update_dec req_body) as [Hvalid | Hinv].
  2: { left.
       destruct (truthy (get_prop "eventName" req_body)) eqn:Hn.
       { eexists. split; [|by apply put_event_truthy_eventName]. done. }
       destruct (truthy (get_prop "id" req_body)) eqn:Hi.
       { eexists. split; [|by apply put_event_truthy_id]. done. }
       eexists. split; [|apply put_event_nothing_to_update; try done].
       - done.
       - destruct (get_prop "location" req_body) eqn:E; [|done].
         destruct Hinv. unfold valid_update. by rewrite E.
       - destruct (get_prop "description" req_body) eqn:E; [|done].
         destruct Hinv. unfold valid_update. rewrite E.
         by rewrite andb_false_r.
       - destruct (get_prop "date" req_body) eqn:E; [|done].
         destruct Hinv. unfold valid_update. rewrite E.
         by rewrite !andb_false_r.
       - destruct (get_prop "tags" req_body) eqn:E; [|done].
         destruct Hinv. unfold valid_update. rewrite E.
         by rewrite !andb_false_r. }
  right.
  destruct (collection (file w)) as [l|] eqn:Hc;
    [|left; by apply router_put_no_collection].
  rewrite (router_put_step id req_body w l) by done.
  destruct (js_findIndex _ l) as [[i|]|e] eqn:Hfind.
  - right. right. cbv zeta.
    destruct (write_error w) as [e|]; [left; by repeat eexists | right].
    destruct (js_findIndex_Some _ _ _ Hfind) as (x & Hx & _).
    exists l, i, x. split; [done|]. split; [done|].
    destruct (alter_found (patch_record req_body) l i x Hx) as [Ha _].
    rewrite Ha, list_lookup_insert_eq; [done|]. by eapply lookup_lt_Some.
  - right. by left.
  - left. exists e. split; [|done].
    eapply js_findIndex_Throw; [|done]. apply has_id_Throw.
Qed.

Lemma router_delete_ends id w :
  (∃ e, statusCode e = None
        ∧ router_delete id w = (error_handler e, record_op ReadFile w))
  ∨ router_delete id w = (not_found, record_op ReadFile w)
  ∨ (∃ e l,
       router_delete id w =
         (error_handler (fs_exn e),
          record_op (WriteFile (JArr l)) (record_op ReadFile w)))
  ∨ (∃ l updated,
       collection (file w) = Some l
       ∧ js_filter (other_id id) l = Return updated
       ∧ router_delete id w =
           (deleted,
            {| file := Holds (Json (JArr updated)); write_error := None;
               trace := WriteFile (JArr updated) :: ReadFile :: trace w |})).
Proof.
  destruct (collection (file w)) as [l|] eqn:Hc;
    [|left; by apply router_delete_no_collection].
  rewrite (router_delete_scan id w l) by done.
  destruct (js_findIndex _ l) as [[i|]|e] eqn:Hfind.
  - destruct (js_filter _ l) as [updated|e] eqn:Hfilter.
    + right. right.
      destruct (write_error w) as [e|]; [left | right]; by repeat eexists.
    + left. exists e. split; [|done].
      eapply js_filter_Throw; [|done]. apply other_id_Throw.
  - right. by left.
  - left. exists e. split; [|done].
    eapply js_findIndex_Throw; [|done]. apply has_id_Throw.
Qed.

Lemma error_handler_500 e :
  statusCode e = None →
  status (error_handler e) = 500%Z ∧ error_response (error_handler e).
Proof.
  intros H. split; [by apply error_handler_status | apply error_handler_error_response].
Qed.

Lemma literal_error_response code msg :
  msg ≠ "" → error_response (Response code (error_body msg)).
Proof. intros H. by exists msg. Qed.

(** X2: whatever the request and whatever the file, a route answers with one
    of its own status codes, and every answer that is not the success of the
    route is an error object with a non-empty message. *)
Theorem routes_status_and_error_body now draw id req_body w :
  (status (router_post now draw req_body w).1 ∈ [201; 400; 409; 500]%Z
   ∧ (status (router_post now draw req_body w).1 = 201%Z
      ∨ error_response (router_post now draw req_body w).1))
  ∧ (status (router_get w).1 ∈ [200; 500]%Z
     ∧ (status (router_get w).1 = 200%Z ∨ error_response (router_get w).1))
  ∧ (status (router_put id req_body w).1 ∈ [200; 400; 404; 500]%Z
     ∧ (status (router_put id req_body w).1 = 200%Z
        ∨ error_response (router_put id req_body w).1))
  ∧ (status (router_delete id w).1 ∈ [200; 404; 500]%Z
     ∧ (status (router_delete id w).1 = 200%Z
        ∨ error_response (router_delete id w).1)).
Proof.
  split; [|split; [|split]].
  - destruct (router_post_ends now draw req_body w)
      as [-> | [(e & He & ->) | [-> | [(e & l & ->) | (l & new & _ & ->)]]]];
      cbn [fst].
    + split; [by repeat constructor | right; by apply literal_error_response].
    + destruct (error_handler_500 e He) as [-> ?].
      split; [by repeat constructor | by right].
    + split; [by repeat constructor | right; by apply literal_error_response].
    + destruct (error_handler_500 (fs_exn e) eq_refl) as [-> ?].
      split; [by repeat constructor | by right].
    + split; [by repeat constructor | by left].
  - destruct (router_get_ends w) as [(v & _ & ->) | [_ ->]]; cbn [fst].
    + split; [by repeat constructor | by left].
    + destruct (error_handler_500 read_failure eq_refl) as [-> ?].
      split; [by repeat constructor | by right].
  - destruct (router_put_ends id req_body w)
      as [(msg & Hmsg & ->) | [(e & He & ->) | [-> | [(e & l & ->)
          | (l & i & x & _ & _ & ->)]]]]; cbn [fst].
    + split; [by repeat constructor | right; by apply literal_error_response].
    + destruct (error_handler_500 e He) as [-> ?].
      split; [by repeat constructor | by right].
    + split; [by repeat constructor | right; by apply literal_error_response].
    + destruct (error_handler_500 (fs_exn e) eq_refl) as [-> ?].
      split; [by repeat constructor | by right].
    + split; [by repeat constructor | by left].
  - destruct (router_delete_ends id w)
      as [(e & He & ->) | [-> | [(e & l & ->) | (l & u & _ & _ & ->)]]];
      cbn [fst].
    + destruct (error_handler_500 e He) as [-> ?].
      split; [by repeat constructor | by right].
    + split; [by repeat constructor | right; by apply literal_error_response].
    + destruct (error_handler_500 (fs_exn e) eq_refl) as [-> ?].
      split; [by repeat constructor | by right].
    + split; [by repeat constructor | by left].
Qed.

(** X3: a request that is not answered with the success code of its route
    leaves the data file exactly as it was, and read-all never changes it.
    This includes the requests whose write fails. *)
Theorem failure_keeps_file now draw id req_body w :
  (status (router_post now draw req_body w).1 = 201%Z
   ∨ file (router_post now draw req_body w).2 = file w)
  ∧ file (router_get w).2 = file w
  ∧ (status (router_put id req_body w).1 = 200%Z
     ∨ file (router_put id req_body w).2 = file w)
  ∧ (status (router_delete id w).1 = 200%Z
     ∨ file (router_delete id w).2 = file w).
Proof.
  split; [|split; [|split]].
  - destruct (router_post_ends now draw req_body w)
      as [-> | [(e & He & ->) | [-> | [(e & l & ->) | (l & new & _ & ->)]]]];
      auto.
  - by destruct (router_get_ends w) as [(v & _ & ->) | [_ ->]].
  - destruct (router_put_ends id req_body w)
      as [(msg & Hmsg & ->) | [(e & He & ->) | [-> | [(e & l & ->)
          | (l & i & x & _ & _ & ->)]]]]; auto.
  - destruct (router_delete_ends id w)
      as [(e & He & ->) | [-> | [(e & l & ->) | (l & u & _ & _ & ->)]]]; auto.
Qed.

(** X4: a route touches the storage in a fixed way.  Read-all reads once.
    The other routes read at most once and write at most once, the write
    after the read, and what is written is an array; delete always reads. *)
Theorem storage_discipline now draw id req_body w :
  read_then_write (trace w) (trace (router_post now draw req_body w).2)
  ∧ trace (router_get w).2 = ReadFile :: trace w
  ∧ read_then_write (trace w) (trace (router_put id req_body w).2)
  ∧ read_then_write (trace w) (trace (router_delete id w).2)
  ∧ trace (router_delete id w).2 ≠ trace w.
Proof.
  assert (Hne : ∀ (a b : io_op) (t : list io_op), a :: t ≠ t ∧ a :: b :: t ≠ t).
  { intros a b t. split; intros E; apply (f_equal length) in E; simpl in E; lia. }
  split; [|split; [|split; [|split]]].
  - destruct (router_post_ends now draw req_body w)
      as [-> | [(e & He & ->) | [-> | [(e & l & ->) | (l & new & _ & ->)]]]];
      unfold read_then_write; simpl; eauto.
  - by destruct (router_get_ends w) as [(v & _ & ->) | [_ ->]].
  - destruct (router_put_ends id req_body w)
      as [(msg & Hmsg & ->) | [(e & He & ->) | [-> | [(e & l & ->)
          | (l & i & x & _ & _ & ->)]]]];
      unfold read_then_write; simpl; eauto.
  - destruct (router_delete_ends id w)
      as [(e & He & ->) | [-> | [(e & l & ->) | (l & u & _ & _ & ->)]]];
      unfold read_then_write; simpl; eauto.
  - destruct (router_delete_ends id w)
      as [(e & He & ->) | [-> | [(e & l & ->) | (l & u & _ & _ & ->)]]];
      simpl; apply Hne; exact ReadFile.
Qed.

(** ** Storage: round trip and failures *)


(** X5: when the file cannot be read or does not parse, every route that
    gets as far as reading answers 500 with the one fixed message, whatever
    the file-system error said, and does nothing but that read. *)
Theorem read_failure_500 now draw id req_body w :
  document (file w) = None →
  let failed :=
    (Response 500 (error_body "Failed to read events data (file may be corrupted)."),
     record_op ReadFile w) in
  router_get w = failed
  ∧ router_delete id w = failed
  ∧ (valid_update req_body → router_put id req_body w = failed)
  ∧ (truthy (get_prop "eventName" req_body) = true →
     truthy (get_prop "date" req_body) = true →
     truthy (get_prop "location" req_body) = true →
     router_post now draw req_body w = failed).
Proof.
  intros Hdoc failed. split; [|split; [|split]].
  - unfold router_get, route, get_events, io_bind. by rewrite readEvents_spec, Hdoc.
  - unfold router_delete, route, delete_event, io_bind.
    by rewrite readEvents_spec, Hdoc.
  - intros (Hn & Hi & Hsome). unfold router_put, route, put_event, io_bind.
    rewrite Hn, get_prop_rest, Hi, Hsome by apply id_not_destructured.
    by rewrite readEvents_spec, Hdoc.
  - intros Tn Td Tl. unfold router_post, route, post_events, io_bind.
    rewrite Tn, Td, Tl. simpl. by rewrite readEvents_spec, Hdoc.
Qed.

Lemma read_failure_500_witness :
  document (file (World (Rejects (FsError "EACCES" "permission denied")) None [])) = None
  ∧ router_get (World (Rejects (FsError "EACCES" "permission denied")) None [])
    = (Response 500 (error_body "Failed to read events data (file may be corrupted)."),
       World (Rejects (FsError "EACCES" "permission denied")) None [ReadFile]).
Proof.
  split; [reflexivity|].
  exact (proj1 (read_failure_500 1 2 "x" []
                  (World (Rejects (FsError "EACCES" "permission denied")) None [])
                  eq_refl)).
Defined.

(** X6: a document that parses to something other than an array is served
    as it is by read-all, with 200; the routes that search it answer 500
    and only read. *)
Theorem non_array_document now draw id req_body w v :
  document (file w) = Some v → is_array (Some v) = false →
  router_get w = (Response 200 v, record_op ReadFile w)
  ∧ (status (router_delete id w).1 = 500%Z
     ∧ (router_delete id w).2 = record_op ReadFile w)
  ∧ (valid_update req_body →
     status (router_put id req_body w).1 = 500%Z
     ∧ (router_put id req_body w).2 = record_op ReadFile w)
  ∧ (truthy (get_prop "eventName" req_body) = true →
     truthy (get_prop "date" req_body) = true →
     truthy (get_prop "location" req_body) = true →
     status (router_post now draw req_body w).1 = 500%Z
     ∧ (router_post now draw req_body w).2 = record_op ReadFile w).
Proof.
  intros Hdoc Harr.
  assert (Hc : collection (file w) = None).
  { unfold collection. rewrite Hdoc. by destruct v. }
  split; [|split; [|split]].
  - unfold router_get, route, get_events, io_bind. by rewrite readEvents_spec, Hdoc.
  - destruct (router_delete_no_collection id w Hc) as (e & He & ->).
    cbn [fst snd]. by rewrite error_handler_status.
  - intros Hvalid.
    destruct (router_put_no_collection id req_body w Hvalid Hc) as (e & He & ->).
    cbn [fst snd]. by rewrite error_handler_status.
  - intros Tn Td Tl.
    destruct (router_post_no_collection now draw req_body w Tn Td Tl Hc)
      as (e & He & ->).
    cbn [fst snd]. by rewrite error_handler_status.
Qed.

Lemma non_array_document_witness :
  document (file (World (Holds (Json (JObj []))) None [])) = Some (JObj [])
  ∧ is_array (Some (JObj [])) = false
  ∧ router_get (World (Holds (Json (JObj []))) None [])
    = (Response 200 (JObj []), World (Holds (Json (JObj []))) None [ReadFile])
  ∧ status (router_delete "x" (World (Holds (Json (JObj []))) None [])).1 = 500%Z.
Proof.
  split; [reflexivity|]. split; [reflexivity|].
  destruct (non_array_document 1 2 "x" [] (World (Holds (Json (JObj []))) None [])
              (JObj []) eq_refl eq_refl) as (Hget & [Hdel _] & _).
  split; [exact Hget | exact Hdel].
Defined.

Lemma js_filter_null id l :
  JNull ∈ l → ∃ e, js_filter (other_id id) l = Throw e.
Proof.
  induction l as [|x l IH]; intros Hin; [by apply elem_of_nil in Hin|].
  simpl. apply elem_of_cons in Hin as [<- | Hin]; [by eexists|].
  destruct (IH Hin) as [e ->].
  destruct (other_id id x); simpl; by eexists.
Qed.

(** X7: one [null] element in the stored array makes every delete fail
    with 500, found or not, and makes a create that has no duplicate in the
    array fail with 500 as well; the file is only read. *)
Theorem null_element_500 now draw id req_body w l n d :
  collection (file w) = Some l → JNull ∈ l →
  (status (router_delete id w).1 = 500%Z
   ∧ (router_delete id w).2 = record_op ReadFile w)
  ∧ (get_prop "eventName" req_body = Some n → truthy (Some n) = true →
     get_prop "date" req_body = Some d → truthy (Some d) = true →
     truthy (get_prop "location" req_body) = true →
     (∀ e, e ∈ l → ¬ (field "eventName" e = Some n ∧ field "date" e = Some d)) →
     status (router_post now draw req_body w).1 = 500%Z
     ∧ (router_post now draw req_body w).2 = record_op ReadFile w).
Proof.
  intros Hc Hnull. split.
  - rewrite (router_delete_scan id w l) by done.
    destruct (js_findIndex _ l) as [[i|]|e] eqn:Hfind.
    + destruct (js_filter_null id l Hnull) as [e Hfilter]. rewrite Hfilter.
      cbn [fst snd]. rewrite error_handler_status; [done|].
      eapply js_filter_Throw; [|done]. apply other_id_Throw.
    + eapply js_findIndex_None in Hfind; [|done]. done.
    + cbn [fst snd]. rewrite error_handler_status; [done|].
      eapply js_findIndex_Throw; [|done]. apply has_id_Throw.
  - intros Hn Tn Hd Td Tl Hfresh.
    destruct (truthy_is_Some _ Tl) as [loc Hl]. rewrite Hl in Tl.
    rewrite (router_post_step now draw req_body w l n d loc) by done.
    destruct (js_find _ l) as [[x|]|e] eqn:Hfind.
    + apply js_find_Some in Hfind as [Hx Hdup].
      apply is_duplicate_Return in Hdup. symmetry in Hdup.
      apply andb_true_iff in Hdup as [H1%strict_eq_eq H2%strict_eq_eq].
      by destruct (Hfresh x Hx).
    + eapply js_find_None in Hfind; [|done]. done.
    + cbn [fst snd]. rewrite error_handler_status; [done|].
      eapply js_find_Throw; [|done]. apply is_duplicate_Throw.
Qed.

Lemma null_element_500_witness :
  collection (file (stored [gala; JNull])) = Some [gala; JNull]
  ∧ JNull ∈ [gala; JNull]
  ∧ status (router_delete "1700000000000-42" (stored [gala; JNull])).1 = 500%Z
  ∧ (router_delete "1700000000000-42" (stored [gala; JNull])).2
    = record_op ReadFile (stored [gala; JNull]).
Proof.
  assert (Hin : JNull ∈ [gala; JNull]) by (right; left).
  split; [reflexivity|]. split; [exact Hin|].
  exact (proj1 (null_element_500 1 2 "1700000000000-42" [] (stored [gala; JNull])
                  [gala; JNull] JNull JNull eq_refl Hin)).
Defined.

(** ** How the routes compose *)


(** A 201 means the scan of the collection went to its end without a
    match. *)
Lemma router_post_scan now draw req_body w :
  status (router_post now draw req_body w).1 = 201%Z →
  ∃ l n d loc,
    get_prop "eventName" req_body = Some n ∧ truthy (Some n) = true
    ∧ get_prop "date" req_body = Some d ∧ truthy (Some d) = true
    ∧ get_prop "location" req_body = Some loc ∧ truthy (Some loc) = true
    ∧ collection (file w) = Some l
    ∧ js_find (is_duplicate (Some n) (Some d)) l = Return None
    ∧ (router_post now draw req_body w).2 =
        {| file :=
             Holds (Json (JArr (l ++ [body (router_post now draw req_body w).1])));
           write_error := None;
           trace :=
             WriteFile (JArr (l ++ [body (router_post now draw req_body w).1]))
               :: ReadFile :: trace w |}
    ∧ body (router_post now draw req_body w).1 =
        created_record (generateId now draw) n d loc
          (get_prop "description" req_body) (get_prop "tags" req_body).
Proof.
  intros H201.
  destruct (router_post_created _ _ _ _ H201)
    as (l & n & d & loc & Hn & Tn & Hd & Td & Hl & Tl & Hc & _ & Hw & Heq).
  exists l, n, d, loc. repeat (split; [done|]).
  split; [|by rewrite Heq].
  rewrite (router_post_step now draw req_body w l n d loc) in H201 by done.
  destruct (js_find _ l) as [[x|]|e] eqn:Hfind; [| done |].
  - apply js_find_Some in Hfind as [_ Hdup].
    apply is_duplicate_Return in Hdup. symmetry in Hdup.
    apply andb_true_iff in Hdup as [Hdup _]. apply strict_eq_eq in Hdup.
    by destruct x.
  - cbn [fst] in H201. rewrite error_handler_status in H201; [done|].
    eapply js_find_Throw; [|done]. apply is_duplicate_Throw.
Qed.



(** X9: after a create answered with 201, read-all answers 200 with the old
    collection followed by the record the create returned. *)
Theorem create_then_read_all now draw req_body w l :
  collection (file w) = Some l →
  status (router_post now draw req_body w).1 = 201%Z →
  (router_get (router_post now draw req_body w).2).1 =
    Response 200 (JArr (l ++ [body (router_post now draw req_body w).1])).
Proof.
  intros Hc H201.
  destruct (router_post_scan _ _ _ _ H201)
    as (l0 & n & d & loc & _ & _ & _ & _ & _ & _ & Hc0 & _ & -> & _).
  by simplify_eq.
Qed.

Lemma create_then_read_all_witness :
  collection (file no_file) = Some []
  ∧ status (router_post 1700000000500 7 expo_request no_file).1 = 201%Z
  ∧ (router_get (router_post 1700000000500 7 expo_request no_file).2).1 =
      Response 200
        (JArr ([] ++ [body (router_post 1700000000500 7 expo_request no_file).1])).
Proof.
  split; [reflexivity|]. split; [reflexivity|].
  exact (create_then_read_all 1700000000500 7 expo_request no_file []
           eq_refl eq_refl).
Defined.

(** X10: a create answered with 201 followed by the delete of the id it
    returned puts the file back to the collection it held before, when that
    collection consists of records none of which has that id. *)
Theorem create_then_delete_restores now draw req_body w l :
  collection (file w) = Some l → all_objects l →
  (∀ e, e ∈ l → field "id" e ≠ Some (JStr (generateId now draw))) →
  status (router_post now draw req_body w).1 = 201%Z →
  field "id" (body (router_post now draw req_body w).1)
    = Some (JStr (generateId now draw))
  ∧ (router_delete (generateId now draw) (router_post now draw req_body w).2).1
    = deleted
  ∧ file (router_delete (generateId now draw) (router_post now draw req_body w).2).2
    = Holds (Json (JArr l)).
Proof.
  intros Hc Hobj Hfresh H201.
  destruct (router_post_scan _ _ _ _ H201)
    as (l0 & n & d & loc & _ & _ & _ & _ & _ & _ & Hc0 & _ & -> & ->).
  simplify_eq. split; [done|].
  set (new := created_record _ _ _ _ _ _).
  assert (Hobj' : all_objects (l ++ [new])).
  { apply Forall_app. split; [done|]. by apply Forall_singleton. }
  rewrite (router_delete_step _ _ (l ++ [new])); [|done..].
  destruct (js_findIndex_id_found (generateId now draw) (l ++ [new]) Hobj')
    as (i & o & -> & _).
  { exists new. split; [|done]. apply elem_of_app. right. left. }
  cbn [write_error fst snd file].
  rewrite (filter_keeps_unique _ l new []); [by rewrite app_nil_r | done |].
  by rewrite app_nil_r.
Qed.

Lemma create_then_delete_restores_witness :
  collection (file (stored [gala])) = Some [gala]
  ∧ all_objects [gala]
  ∧ (∀ e, e ∈ [gala] → field "id" e ≠ Some (JStr (generateId 1700000000500 7)))
  ∧ status (router_post 1700000000500 7 expo_request (stored [gala])).1 = 201%Z
  ∧ file (router_delete (generateId 1700000000500 7)
            (router_post 1700000000500 7 expo_request (stored [gala])).2).2
    = Holds (Json (JArr [gala])).
Proof.
  assert (Hobj : all_objects [gala]) by (by repeat constructor).
  assert (Hfresh : ∀ e, e ∈ [gala] →
            field "id" e ≠ Some (JStr (generateId 1700000000500 7))).
  { intros e He. apply list_elem_of_singleton in He as ->. done. }
  split; [reflexivity|]. split; [exact Hobj|]. split; [exact Hfresh|].
  split; [reflexivity|].
  exact (proj2 (proj2 (create_then_delete_restores 1700000000500 7 expo_request
                         (stored [gala]) [gala] eq_refl Hobj Hfresh eq_refl))).
Defined.

(** ** Updates *)

Lemma set_prop_id k v o : get_prop k o = Some v → set_prop k v o = o.
Proof.
  induction o as [|[k' v'] o IH]; simpl; [done|].
  destruct (decide (k' = k)) as [->|Hne]; [by intros [= ->]|].
  intros H. by rewrite IH.
Qed.

Lemma patch_record_idem req_body o :
  patch_record req_body (patch_record req_body (JObj o))
  = patch_record req_body (JObj o).
Proof.
  destruct (patch_record_spec req_body o)
    as (o' & -> & Hloc & Hdesc & Hdate & Htags & _ & _).
  unfold patch_record, updated_field in *.
  destruct (get_prop "location" req_body);
    [rewrite assign_object, (set_prop_id _ _ _ Hloc)|];
    (destruct (get_prop "description" req_body);
     [rewrite assign_object, (set_prop_id _ _ _ Hdesc)|]);
    (destruct (get_prop "date" req_body);
     [rewrite assign_object, (set_prop_id _ _ _ Hdate)|]);
    (destruct (get_prop "tags" req_body);
     [rewrite assign_object, (set_prop_id _ _ _ Htags)|]); done.
Qed.

Lemma js_findIndex_alter p f l i :
  js_findIndex p l = Return (Some i) →
  (∀ x, l !! i = Some x → p (f x) = Return true) →
  js_findIndex p (alter f i l) = Return (Some i).
Proof.
  revert i. induction l as [|y l IH]; intros i; simpl; [done|].
  destruct (p y) as [[]|] eqn:Hy; simpl; [| |done].
  - intros [= <-] Hf. simpl. by rewrite (Hf y).
  - destruct (js_findIndex p l) as [[k|]|] eqn:Hl; simpl; try done.
    intros [= <-] Hf.
    change (alter f (S k) (y :: l)) with (y :: alter f k l).
    cbn [js_findIndex]. rewrite Hy. cbn [out_bind].
    by rewrite (IH k eq_refl Hf).
Qed.

(** A 200 means the scan found the record at some index. *)
Lemma router_put_scan id req_body w :
  status (router_put id req_body w).1 = 200%Z →
  ∃ l i o,
    valid_update req_body ∧ collection (file w) = Some l
    ∧ js_findIndex (has_id id) l = Return (Some i)
    ∧ l !! i = Some (JObj o) ∧ get_prop "id" o = Some (JStr id)
    ∧ router_put id req_body w =
        (Response 200 (patch_record req_body (JObj o)),
         {| file := Holds (Json (JArr (alter (patch_record req_body) i l)));
            write_error := None;
            trace := WriteFile (JArr (alter (patch_record req_body) i l))
                       :: ReadFile :: trace w |}).
Proof.
  intros H.
  destruct (router_put_updated _ _ _ H) as (l & i0 & o0 & Hvalid & Hc & _).
  rewrite (router_put_step id req_body w l) in H |- * by done.
  destruct (js_findIndex _ l) as [[i|]|e] eqn:Hfind; [| done |].
  - destruct (write_error w) as [e|]; [done|].
    destruct (js_findIndex_Some _ _ _ Hfind) as (x & Hx & Hp & _).
    apply has_id_true in Hp as (o & -> & Ho).
    exists l, i, o. repeat (split; [done|]). cbv zeta.
    by rewrite list_lookup_alter_eq, Hx.
  - cbn [fst] in H. rewrite error_handler_status in H; [done|].
    eapply js_findIndex_Throw; [|done]. apply has_id_Throw.
Qed.

Lemma patch_record_keeps_id id req_body o :
  get_prop "id" o = Some (JStr id) →
  has_id id (patch_record req_body (JObj o)) = Return true.
Proof.
  intros Hid.
  destruct (patch_record_spec req_body o) as (o' & -> & _ & _ & _ & _ & Hother & _).
  rewrite has_id_not_null by done. simpl. rewrite Hother, Hid.
  - by rewrite strict_eq_refl_primitive.
  - unfold recognized. rewrite !not_elem_of_cons.
    repeat split; try done. apply not_elem_of_nil.
Qed.

(** X11: an update answered with 200 is idempotent: the same request sent
    again is answered with the same record, and the file it writes is the
    file the first update wrote. *)
Theorem put_twice id req_body w :
  status (router_put id req_body w).1 = 200%Z →
  (router_put id req_body (router_put id req_body w).2).1
    = (router_put id req_body w).1
  ∧ file (router_put id req_body (router_put id req_body w).2).2
    = file (router_put id req_body w).2.
Proof.
  intros H200.
  destruct (router_put_scan _ _ _ H200)
    as (l & i & o & Hvalid & Hc & Hfind & Hi & Hid & ->).
  cbn [fst snd].
  erewrite (router_put_step id req_body); [|done | reflexivity].
  rewrite (js_findIndex_alter _ _ _ _ Hfind).
  2: { intros x Hx. simplify_eq. by apply patch_record_keeps_id. }
  cbn [write_error]. cbv zeta.
  rewrite list_alter_alter_eq.
  assert (Hsame : alter (patch_record req_body ∘ patch_record req_body) i l
                  = alter (patch_record req_body) i l).
  { apply list_alter_ext; [|done]. intros x Hx. simplify_eq. simpl.
    apply patch_record_idem. }
  rewrite Hsame. cbn [fst snd file].
  by rewrite list_lookup_alter_eq, Hi.
Qed.

Lemma put_twice_witness :
  status (router_put "1700000000000-42" [("tags", JStr "gala")]
            (stored [expo; gala])).1 = 200%Z
  ∧ (router_put "1700000000000-42" [("tags", JStr "gala")]
       (router_put "1700000000000-42" [("tags", JStr "gala")]
          (stored [expo; gala])).2).1
    = (router_put "1700000000000-42" [("tags", JStr "gala")]
         (stored [expo; gala])).1.
Proof.
  split; [reflexivity|].
  exact (proj1 (put_twice "1700000000000-42" [("tags", JStr "gala")]
                  (stored [expo; gala]) eq_refl)).
Defined.

(** X12: an update answered with 200 keeps the collection's length, the
    [id] of every position and the [eventName] of every position; so ids
    that were pairwise distinct stay pairwise distinct. *)
Theorem put_keeps_ids_and_names id req_body w l :
  collection (file w) = Some l →
  status (router_put id req_body w).1 = 200%Z →
  ∃ l',
    collection (file (router_put id req_body w).2) = Some l'
    ∧ length l' = length l
    ∧ ids l' = ids l
    ∧ field "eventName" <$> l' = field "eventName" <$> l
    ∧ (NoDup (ids l) → NoDup (ids l')).
Proof.
  intros Hc H200.
  destruct (router_put_updated _ _ _ H200)
    as (l0 & i & o & _ & Hc0 & Hi & _ & ->).
  simplify_eq.
  destruct (patch_record_spec req_body o) as (o' & -> & _ & _ & _ & _ & Hother & _).
  assert (Hkeep : ∀ k, k ∉ recognized →
            field k <$> <[i := JObj o']> l = field k <$> l).
  { intros k Hk. rewrite list_fmap_insert. apply list_insert_id.
    rewrite list_lookup_fmap, Hi. simpl. by rewrite Hother. }
  assert (Hids : ids (<[i := JObj o']> l) = ids l).
  { apply Hkeep. unfold recognized. rewrite !not_elem_of_cons.
    repeat split; try done. apply not_elem_of_nil. }
  eexists. split; [done|]. split; [apply length_insert|]. split; [done|].
  split; [|by rewrite Hids].
  apply Hkeep. unfold recognized. rewrite !not_elem_of_cons.
  repeat split; try done. apply not_elem_of_nil.
Qed.

Lemma put_keeps_ids_and_names_witness :
  collection (file (stored [expo; gala])) = Some [expo; gala]
  ∧ status (router_put "1700000000000-42" [("date", JStr "2025-02-02")]
              (stored [expo; gala])).1 = 200%Z
  ∧ ∃ l',
      collection (file (router_put "1700000000000-42" [("date", JStr "2025-02-02")]
                          (stored [expo; gala])).2) = Some l'
      ∧ length l' = length [expo; gala]
      ∧ ids l' = ids [expo; gala]
      ∧ field "eventName" <$> l' = field "eventName" <$> [expo; gala]
      ∧ (NoDup (ids [expo; gala]) → NoDup (ids l')).
Proof.
  split; [reflexivity|]. split; [reflexivity|].
  exact (put_keeps_ids_and_names "1700000000000-42" [("date", JStr "2025-02-02")]
           (stored [expo; gala]) [expo; gala] eq_refl eq_refl).
Defined.

(** ** Deletes *)

Lemma js_filter_Return p (q : json → bool) l u :
  (∀ e b, p e = Return b → b = q e) →
  js_filter p l = Return u → u = List.filter q l.
Proof.
  intros Hp. revert u. induction l as [|x l IH]; intros u; simpl.
  - by intros [= <-].
  - destruct (p x) as [b|] eqn:Hx; simpl; [|done].
    destruct (js_filter p l) as [r|]; simpl; [|done].
    intros [= <-]. rewrite <- (Hp x b Hx), <- (IH r eq_refl). done.
Qed.

Lemma other_id_Return id e b : other_id id e = Return b → b = keeps id e.
Proof.
  unfold other_id, keeps. destruct (has_id id e) as [c|] eqn:H; simpl; [|done].
  intros [= <-]. by rewrite (has_id_Return _ _ _ H).
Qed.

Lemma unique_keys_cons x l :
  unique_keys (x :: l) ↔ (∀ e, e ∈ l → ¬ same_key x e) ∧ unique_keys l.
Proof.
  split.
  - intros H. split.
    + intros e He. apply list_elem_of_lookup in He as [j Hj].
      by apply (H 0 (S j) x e).
    + intros i j a b Hi Hj Hne. apply (H (S i) (S j) a b); [done..|lia].
  - intros [Hx Hl] [|i] [|j] a b Hi Hj Hne; simpl in Hi, Hj; simplify_eq.
    + apply Hx. by eapply list_elem_of_lookup_2.
    + intros [H1 H2]. apply (Hx a); [by eapply list_elem_of_lookup_2|].
      by split.
    + apply (Hl i j); [done..|lia].
Qed.

Lemma unique_keys_filter q l : unique_keys l → unique_keys (List.filter q l).
Proof.
  induction l as [|x l IH]; simpl; [done|].
  intros [Hx Hl]%unique_keys_cons. destruct (q x); [|by apply IH].
  apply unique_keys_cons. split; [|by apply IH].
  intros e He. apply Hx. apply list_elem_of_In.
  apply list_elem_of_In, List.filter_In in He. tauto.
Qed.

Lemma NoDup_ids_filter q l : NoDup (ids l) → NoDup (ids (List.filter q l)).
Proof.
  unfold ids. induction l as [|x l IH]; simpl; [done|].
  intros [Hx Hl]%NoDup_cons. destruct (q x); [|by apply IH].
  simpl. apply NoDup_cons. split; [|by apply IH].
  intros (e & He1 & He2)%list_elem_of_fmap. apply Hx.
  apply list_elem_of_fmap. exists e. split; [done|].
  apply list_elem_of_In. apply list_elem_of_In, List.filter_In in He2. tauto.
Qed.

Lemma filter_shorter (q : json → bool) l x :
  x ∈ l → q x = false → length (List.filter q l) < length l.
Proof.
  induction l as [|y l IH]; intros Hin Hq; [by apply elem_of_nil in Hin|].
  simpl. pose proof (List.filter_length_le q l) as Hle.
  apply elem_of_cons in Hin as [<- | Hin].
  - rewrite Hq. lia.
  - specialize (IH Hin Hq). destruct (q y); simpl; lia.
Qed.

(** X13: a delete answered with 200 stores exactly the records whose id
    is not the deleted one, in their order; the collection gets shorter,
    and [(eventName, date)] pairs and ids that were pairwise distinct, and
    tags that were arrays, stay so. *)
Theorem delete_keeps_invariants id w l :
  collection (file w) = Some l →
  status (router_delete id w).1 = 200%Z →
  collection (file (router_delete id w).2) = Some (List.filter (keeps id) l)
  ∧ (∀ e, e ∈ List.filter (keeps id) l ↔ e ∈ l ∧ field "id" e ≠ Some (JStr id))
  ∧ length (List.filter (keeps id) l) < length l
  ∧ (unique_keys l → unique_keys (List.filter (keeps id) l))
  ∧ (NoDup (ids l) → NoDup (ids (List.filter (keeps id) l)))
  ∧ (Forall tags_is_array l → Forall tags_is_array (List.filter (keeps id) l)).
Proof.
  intros Hc H200.
  rewrite (router_delete_scan id w l) in H200 |- * by done.
  destruct (js_findIndex _ l) as [[i|]|e] eqn:Hfind; [| done |].
  2: { cbn [fst] in H200. rewrite error_handler_status in H200; [done|].
       eapply js_findIndex_Throw; [|done]. apply has_id_Throw. }
  destruct (js_filter _ l) as [u|e] eqn:Hfilter.
  2: { cbn [fst] in H200. rewrite error_handler_status in H200; [done|].
       eapply js_filter_Throw; [|done]. apply other_id_Throw. }
  destruct (write_error w) as [e|]; [done|].
  apply (js_filter_Return _ (keeps id)) in Hfilter; [|apply other_id_Return].
  subst u. split; [done|]. split; [|split; [|split; [|split]]].
  - intros e. rewrite list_elem_of_In, List.filter_In, <- list_elem_of_In.
    by rewrite keeps_true.
  - destruct (js_findIndex_Some _ _ _ Hfind) as (x & Hx & Hp & _).
    apply (filter_shorter _ _ x); [by eapply list_elem_of_lookup_2|].
    apply has_id_Return in Hp. unfold keeps. by rewrite <- Hp.
  - apply unique_keys_filter.
  - apply NoDup_ids_filter.
  - rewrite !Forall_forall. intros H e He. apply H.
    apply list_elem_of_In. apply list_elem_of_In, List.filter_In in He. tauto.
Qed.

Lemma delete_keeps_invariants_witness :
  collection (file (stored [expo; gala])) = Some [expo; gala]
  ∧ status (router_delete "1700000000500-7" (stored [expo; gala])).1 = 200%Z
  ∧ collection (file (router_delete "1700000000500-7" (stored [expo; gala])).2)
    = Some (List.filter (keeps "1700000000500-7") [expo; gala]).
Proof.
  split; [reflexivity|]. split; [reflexivity|].
  exact (proj1 (delete_keeps_invariants "1700000000500-7" (stored [expo; gala])
                  [expo; gala] eq_refl eq_refl)).
Defined.

(** ** Request bodies *)

(** X14: a route looks at nothing in the body but the properties it names.
    Two create bodies with the same [eventName], [date], [location],
    [description] and [tags] get the same answer and leave the same world;
    so do two update bodies that agree on these and on [id].  Whatever else
    a body carries is neither checked nor stored. *)
Theorem unknown_fields_ignored now draw id body1 body2 w :
  (∀ k, k ∈ ["eventName"; "date"; "location"; "description"; "tags"] →
        get_prop k body1 = get_prop k body2) →
  router_post now draw body1 w = router_post now draw body2 w
  ∧ (get_prop "id" body1 = get_prop "id" body2 →
     router_put id body1 w = router_put id body2 w).
Proof.
  intros H.
  assert (Hn : get_prop "eventName" body1 = get_prop "eventName" body2)
    by (apply H; repeat constructor).
  assert (Hd : get_prop "date" body1 = get_prop "date" body2)
    by (apply H; repeat constructor).
  assert (Hl : get_prop "location" body1 = get_prop "location" body2)
    by (apply H; repeat constructor).
  assert (Hde : get_prop "description" body1 = get_prop "description" body2)
    by (apply H; repeat constructor).
  assert (Ht : get_prop "tags" body1 = get_prop "tags" body2)
    by (apply H; repeat constructor).
  split.
  - unfold router_post, post_events. by rewrite Hn, Hd, Hl, Hde, Ht.
  - intros Hi. unfold router_put, put_event.
    rewrite !get_prop_rest by apply id_not_destructured.
    by rewrite Hn, Hd, Hl, Hde, Ht, Hi.
Qed.

Lemma unknown_fields_ignored_witness :
  (∀ k, k ∈ ["eventName"; "date"; "location"; "description"; "tags"] →
        get_prop k (("admin", JBool true) :: gala_request) = get_prop k gala_request)
  ∧ router_post 1700000000000 42 (("admin", JBool true) :: gala_request) no_file
    = router_post 1700000000000 42 gala_request no_file.
Proof.
  assert (H : ∀ k, k ∈ ["eventName"; "date"; "location"; "description"; "tags"] →
            get_prop k (("admin", JBool true) :: gala_request)
            = get_prop k gala_request).
  { intros k Hk.
    repeat (apply elem_of_cons in Hk as [-> | Hk]; [reflexivity|]).
    by apply elem_of_nil in Hk. }
  split; [exact H|].
  exact (proj1 (unknown_fields_ignored 1700000000000 42 "x"
                  (("admin", JBool true) :: gala_request) gala_request no_file H)).
Defined.

(** X15: the update route does not look for duplicates.  In a store of two
    records with the same [eventName], changing the [date] of the first to
    the [date] of the second is answered with 200, and the collection then
    holds two records with the same [(eventName, date)] pair. *)
Theorem update_skips_duplicate_check id o other v :
  get_prop "id" o = Some (JStr id) →
  field "eventName" other = get_prop "eventName" o →
  field "date" other = Some v →
  status (router_put id [("date", v)] (stored [JObj o; other])).1 = 200%Z
  ∧ ∃ l',
      collection (file (router_put id [("date", v)] (stored [JObj o; other])).2)
        = Some l'
      ∧ ¬ unique_keys l'.
Proof.
  intros Hid Hname Hdate.
  rewrite (router_put_step id [("date", v)] _ [JObj o; other]); [|done..].
  cbn [js_findIndex]. rewrite has_id_not_null by done. cbn [field].
  rewrite Hid, strict_eq_refl_primitive by done. cbn [out_bind].
  split; [done|]. eexists. split; [reflexivity|].
  intros Huniq. apply (Huniq 0 1 (JObj (set_prop "date" v o)) other);
    [done | done | lia |].
  split; cbn [field].
  - by rewrite get_prop_set_ne.
  - by rewrite get_prop_set_eq.
Qed.

Lemma update_skips_duplicate_check_witness :
  get_prop "id" [("id", JStr "1"); ("eventName", JStr "Gala"); ("date", JStr "d1")]
    = Some (JStr "1")
  ∧ field "eventName" (JObj [("id", JStr "2"); ("eventName", JStr "Gala");
                             ("date", JStr "d2")])
    = get_prop "eventName"
        [("id", JStr "1"); ("eventName", JStr "Gala"); ("date", JStr "d1")]
  ∧ field "date" (JObj [("id", JStr "2"); ("eventName", JStr "Gala");
                        ("date", JStr "d2")])
    = Some (JStr "d2")
  ∧ status (router_put "1" [("date", JStr "d2")]
              (stored [JObj [("id", JStr "1"); ("eventName", JStr "Gala");
                             ("date", JStr "d1")];
                       JObj [("id", JStr "2"); ("eventName", JStr "Gala");
                             ("date", JStr "d2")]])).1 = 200%Z.
Proof.
  repeat (split; [reflexivity|]).
  exact (proj1 (update_skips_duplicate_check "1"
                  [("id", JStr "1"); ("eventName", JStr "Gala"); ("date", JStr "d1")]
                  (JObj [("id", JStr "2"); ("eventName", JStr "Gala");
                         ("date", JStr "d2")])
                  (JStr "d2") eq_refl eq_refl eq_refl)).
Defined.
